(** * Booleano constant operands

    A shallow embedding of [booleano/operations/operands/constants.py]:
    the constants [String], [Number], [Arithmetic] and [Set], and the
    arithmetic sub-evaluator [ArithmeticVariable].

    Python values are an inductive type, exceptions are the error side
    of a [result], objects carry their identity ([oid]) and a float is
    an IEEE binary64 number ([spec_float] at precision 53).

    The code is read as Python 3, the branch [String.__init__] tries
    first. The [print] calls of [Arithmetic] only write to the standard
    output and are left out. A Python set is held as the list of its
    members in the order the loops visit them; the language leaves that
    order open, and the statements on sets hold for every such list.
    The [Operand] base class is not among the sources: the [==] of two
    operands, which it decides, is a parameter of [check_equivalence]. *)

From Stdlib Require Import ZArith List String Ascii Bool Lia Permutation.
From Stdlib Require Import Floats.SpecFloat DecimalString.
Import ListNotations.

Local Open Scope string_scope.
Local Open Scope Z_scope.

(** ** Python values *)

Definition float := spec_float.

Definition prec : Z := 53.
Definition emax : Z := 1024.

#[warnings="-register-all"]
Inductive PyVal :=
| PyNone
| PyBool (b : bool)
| PyInt (z : Z)
| PyFloat (f : float)
| PyStr (s : string)
| PyList (l : list PyVal)
| PyDict (d : list (string * PyVal)).

(** The context handed to every operand method is an externally owned
    nested key-value structure: a Python dict. *)
Definition Context := PyVal.

(** ** Exceptions *)

(** The text of an [InvalidOperationError], kept with the value it is
    formatted from. *)
Inductive message :=
| NotANumber (value : PyVal)      (* '"%s" is not a number' % value *)
| NotAnInteger (value : PyVal)    (* '... the operand %s has to be an integer' % repr(value) *)
| NotAnOperand (item : PyVal).    (* 'Item "%s" is not an operand ...' % item *)

(** The two assertions of [Set.check_equivalence]; the unmatched
    elements are named by their object identities. *)
Inductive assertion :=
| DifferentCardinality (unmatched : list nat)
| NoMatchFor (unmatched : list nat).

Inductive exn :=
| InvalidOperationError (m : message)
| ValueError
| TypeError
| OverflowError
| ZeroDivisionError
| KeyError (key : string)
| AssertionError (a : assertion)
| UnsafeExpression.

Inductive result (A : Type) :=
| Ok (a : A)
| Raise (e : exn).

Arguments Ok {A} a.
Arguments Raise {A} e.

Definition bind {A B : Type} (c : result A) (k : A -> result B) : result B :=
  match c with
  | Ok a => k a
  | Raise e => Raise e
  end.

Notation "x <- c ;; k" := (bind c (fun x => k))
  (at level 61, c at next level, right associativity).

(** ** Conversions of the host language *)

(** The text conversions of floats and containers and the power of two
    floats belong to the Python runtime, not to this repository: they
    are taken as they come. [float_of_text] and [int_of_text] answer
    [None] where [float(s)] and [int(s)] raise [ValueError]. *)
Record PyRuntime := {
  float_of_text : string -> option float;
  int_of_text : string -> option Z;
  text_of : PyVal -> string;
  float_pow : float -> float -> result float
}.

(** [float(k)] for an int: rounded to nearest even, [OverflowError]
    beyond the finite range. *)
Definition float_of_Z (k : Z) : result float :=
  match binary_normalize prec emax k 0 false with
  | S754_infinity _ => Raise OverflowError
  | f => Ok f
  end.

(** [int(f)] for a float: truncation towards zero. *)
Definition Z_of_float (f : float) : result Z :=
  match f with
  | S754_zero _ => Ok 0
  | S754_infinity _ => Raise OverflowError
  | S754_nan => Raise ValueError
  | S754_finite s m e =>
      let a := Z.shiftl (Zpos m) e in
      Ok (if s then - a else a)
  end.

(** [k == f] between an int and a float compares the exact values. *)
Definition int_eq_float (k : Z) (f : float) : bool :=
  match f with
  | S754_zero _ => k =? 0
  | S754_finite s m e =>
      let a := Z.shiftl (Zpos m) e in
      (Z.shiftl a (- e) =? Zpos m) && (k =? (if s then - a else a))
  | _ => false
  end.

Section Conversions.

Variable rt : PyRuntime.

(** [float(value)] *)
Definition py_float (value : PyVal) : result float :=
  match value with
  | PyNone => Raise TypeError
  | PyBool b => float_of_Z (if b then 1 else 0)
  | PyInt z => float_of_Z z
  | PyFloat f => Ok f
  | PyStr s =>
      match float_of_text rt s with
      | Some f => Ok f
      | None => Raise ValueError
      end
  | PyList _ | PyDict _ => Raise TypeError
  end.

(** [int(value)] *)
Definition py_int (value : PyVal) : result Z :=
  match value with
  | PyNone => Raise TypeError
  | PyBool b => Ok (if b then 1 else 0)
  | PyInt z => Ok z
  | PyFloat f => Z_of_float f
  | PyStr s =>
      match int_of_text rt s with
      | Some z => Ok z
      | None => Raise ValueError
      end
  | PyList _ | PyDict _ => Raise TypeError
  end.

(** [str(value)] *)
Definition py_str (value : PyVal) : string :=
  match value with
  | PyNone => "None"
  | PyBool true => "True"
  | PyBool false => "False"
  | PyInt z => NilZero.string_of_int (Z.to_int z)
  | PyStr s => s
  | PyFloat _ | PyList _ | PyDict _ => text_of rt value
  end.

End Conversions.

(** [d[key]] on a context. *)
Definition py_getitem (d : PyVal) (key : string) : result PyVal :=
  match d with
  | PyDict kvs =>
      match find (fun kv => String.eqb (fst kv) key) kvs with
      | Some kv => Ok (snd kv)
      | None => Raise (KeyError key)
      end
  | _ => Raise TypeError
  end.

(** ** Operands *)

(** The operand contract as the constants use it: an operand is an
    object ([oid] is its identity, [kind] its class and
    [constant_value] what it holds when it is a constant) with
    [to_python] and [equals]. *)
Record Operand := {
  oid : nat;
  kind : string;
  constant_value : option PyVal;
  to_python : Context -> result PyVal;
  equals : PyVal -> Context -> result bool
}.

(** ** String *)

Record StringConst := {
  String_oid : nat;
  String_constant_value : string
}.

Section StringMethods.

Variable rt : PyRuntime.

(** [String.__init__]: [string = str(string)] before it is stored. *)
Definition String_init (id : nat) (string : PyVal) : StringConst :=
  let string := py_str rt string in
  {| String_oid := id; String_constant_value := string |}.

(** [Constant.to_python], inherited. *)
Definition String_to_python (self : StringConst) (context : Context)
  : result PyVal :=
  Ok (PyStr (String_constant_value self)).

(** [String.equals]: [value = str(value)], then [Constant.equals],
    which is [self.constant_value == value] on two strings. *)
Definition String_equals (self : StringConst) (value : PyVal)
    (context : Context) : result bool :=
  let value := py_str rt value in
  Ok (String.eqb (String_constant_value self) value).

Definition String_operand (self : StringConst) : Operand :=
  {| oid := String_oid self;
     kind := "String";
     constant_value := Some (PyStr (String_constant_value self));
     to_python := String_to_python self;
     equals := String_equals self |}.

End StringMethods.

(** ** Number *)

Record Number := {
  Number_oid : nat;
  Number_constant_value : float
}.

Section NumberMethods.

Variable rt : PyRuntime.

(** [Number.__init__]: [number = float(number)], unguarded. *)
Definition Number_init (id : nat) (number : PyVal) : result Number :=
  number <- py_float rt number ;;
  Ok {| Number_oid := id; Number_constant_value := number |}.

Definition Number_to_python (self : Number) (context : Context)
  : result PyVal :=
  Ok (PyFloat (Number_constant_value self)).

(** [Number._to_number]: [float(value)] under [except ValueError]. *)
Definition Number__to_number (value : PyVal) : result float :=
  match py_float rt value with
  | Ok f => Ok f
  | Raise ValueError => Raise (InvalidOperationError (NotANumber value))
  | Raise e => Raise e
  end.

Definition Number_equals (self : Number) (value : PyVal)
    (context : Context) : result bool :=
  value <- Number__to_number value ;;
  Ok (SFeqb (Number_constant_value self) value).

Definition Number_greater_than (self : Number) (value : PyVal)
    (context : Context) : result bool :=
  value <- Number__to_number value ;;
  Ok (SFltb value (Number_constant_value self)).

Definition Number_less_than (self : Number) (value : PyVal)
    (context : Context) : result bool :=
  value <- Number__to_number value ;;
  Ok (SFltb (Number_constant_value self) value).

Definition Number_operand (self : Number) : Operand :=
  {| oid := Number_oid self;
     kind := "Number";
     constant_value := Some (PyFloat (Number_constant_value self));
     to_python := Number_to_python self;
     equals := Number_equals self |}.

End NumberMethods.

(** ** Set *)

(** Modelled from the spec: the [Operand] base class is not among the
    sources. [String] hashes by [id] and the spec keeps identity for
    container membership, so two operands are one member of a Python
    set only when they are the same object. *)
Definition same_object (a b : Operand) : bool :=
  Nat.eqb (oid a) (oid b).

Record SetConst := {
  Set_oid : nat;
  Set_constant_value : list Operand
}.

(** [set(items)] on objects hashed by identity: an object met again is
    not stored twice. Members are kept in the order the
    loops of the methods below visit them. *)
Fixpoint set_of (items : list Operand) : list Operand :=
  match items with
  | [] => []
  | item :: rest =>
      item :: filter (fun o => negb (same_object item o)) (set_of rest)
  end.

(** An argument of [Set(...)]: an operand, or anything else. *)
Inductive item :=
| AnOperand (o : Operand)
| NotOperand (v : PyVal).

Fixpoint check_items (items : list item) : result (list Operand) :=
  match items with
  | [] => Ok []
  | AnOperand o :: rest => os <- check_items rest ;; Ok (o :: os)
  | NotOperand v :: _ => Raise (InvalidOperationError (NotAnOperand v))
  end.

(** [Set.__init__]: the [isinstance] loop, then [set(items)]. *)
Definition Set_init (id : nat) (items : list item) : result SetConst :=
  items <- check_items items ;;
  Ok {| Set_oid := id; Set_constant_value := set_of items |}.

Section SetMethods.

Variable rt : PyRuntime.

(** [Set._to_int]: [int(value)] and [int(value) == float(value)]
    under [except (ValueError, TypeError)]. *)
Definition Set__to_int (value : PyVal) : result Z :=
  let attempt :=
    value_as_int <- py_int rt value ;;
    as_float <- py_float rt value ;;
    Ok (value_as_int, int_eq_float value_as_int as_float) in
  match attempt with
  | Ok (value_as_int, true) => Ok value_as_int
  | Ok (_, false) | Raise ValueError | Raise TypeError =>
      Raise (InvalidOperationError (NotAnInteger value))
  | Raise e => Raise e
  end.

Definition Set_less_than (self : SetConst) (value : PyVal)
    (context : Context) : result bool :=
  value <- Set__to_int value ;;
  Ok (Z.of_nat (List.length (Set_constant_value self)) <? value).

Definition Set_greater_than (self : SetConst) (value : PyVal)
    (context : Context) : result bool :=
  value <- Set__to_int value ;;
  Ok (value <? Z.of_nat (List.length (Set_constant_value self))).

End SetMethods.

(** The loop of [Set.belongs_to] over the members still to visit. *)
Fixpoint belongs_to_loop (members : list Operand) (value : PyVal)
    (context : Context) : result bool :=
  match members with
  | [] => Ok false
  | member :: rest =>
      match equals member value context with
      | Ok true => Ok true
      | Ok false => belongs_to_loop rest value context
      | Raise (InvalidOperationError _) => belongs_to_loop rest value context
      | Raise e => Raise e
      end
  end.

Definition Set_belongs_to (self : SetConst) (value : PyVal)
    (context : Context) : result bool :=
  belongs_to_loop (Set_constant_value self) value context.

(** [Set.is_subset]; [value] is the iterable, in iteration order. *)
Fixpoint Set_is_subset (self : SetConst) (value : list PyVal)
    (context : Context) : result bool :=
  match value with
  | [] => Ok true
  | v :: rest =>
      found <- Set_belongs_to self v context ;;
      if found then Set_is_subset self rest context else Ok false
  end.

Section Equivalence.

(** The [==] of two operands. The [Operand] base class, which decides
    it, is not among the sources: [check_equivalence] takes it as
    given. *)
Variable operand_eq : Operand -> Operand -> bool.

(** The inner loop of [Set.check_equivalence]: delete the first
    unmatched element [==] to [element], if there is one. *)
Fixpoint delete_first (element : Operand) (unmatched : list Operand)
  : list Operand :=
  match unmatched with
  | [] => []
  | u :: rest =>
      if operand_eq u element then rest
      else u :: delete_first element rest
  end.

(** [Set.check_equivalence] on a [node] that is a Set (the class test
    of [Operand.check_equivalence] is then passed). *)
Definition Set_check_equivalence (self node : SetConst) : result unit :=
  let unmatched_elements := Set_constant_value self in
  if negb (Nat.eqb (List.length unmatched_elements)
                   (List.length (Set_constant_value node)))
  then Raise (AssertionError
                (DifferentCardinality (map oid unmatched_elements)))
  else
    let unmatched_elements :=
      fold_left (fun unmatched element => delete_first element unmatched)
                (Set_constant_value node) unmatched_elements in
    match unmatched_elements with
    | [] => Ok tt
    | _ => Raise (AssertionError (NoMatchFor (map oid unmatched_elements)))
    end.

End Equivalence.

(** Modelled from the spec: [==] on the values two constants hold, text
    for a [String] and a float for a [Number]. *)
Definition value_eq (a b : PyVal) : bool :=
  match a, b with
  | PyStr s, PyStr t => String.eqb s t
  | PyFloat f, PyFloat g => SFeqb f g
  | _, _ => false
  end.

(** Modelled from the spec: what [==] answers on two operands. The
    [Operand] base class is not among the sources; the spec gives an
    operand no identity beyond its structural value and calls two
    constants equivalent iff they are of the same kind and hold the
    same [constant_value], which is the test of
    [Constant.check_equivalence]. *)
Definition structural_eq (a b : Operand) : bool :=
  (String.eqb (kind a) (kind b)
   && match constant_value a, constant_value b with
      | Some x, Some y => value_eq x y
      | None, None => true
      | _, _ => false
      end)%bool.

(** ** SafeEval *)

(** A number of the evaluator: a Python int or float. *)
Inductive num :=
| NInt (z : Z)
| NFloat (f : float).

Definition num_value (n : num) : PyVal :=
  match n with
  | NInt z => PyInt z
  | NFloat f => PyFloat f
  end.

Inductive binop := Add | Sub | Mul | Div | Pow.

(** What the restricted grammar can denote: literals, the five binary
    operators and unary minus. There is no node for a name, a call, an
    attribute or a statement. *)
Inductive expr :=
| ENum (n : num)
| ENeg (e : expr)
| EBin (op : binop) (l r : expr).

Inductive lexeme :=
| LNum (n : num)
| LOp (op : binop)
| LOpen
| LClose.

(** The value of the decimal literal [m / 10^places], rounded to the
    nearest float. *)
Definition decimal_float (m : Z) (places : nat) : float :=
  if m =? 0 then S754_zero false
  else
    let '(q, e, l) :=
      SFdiv_core_binary prec emax m 0 (10 ^ Z.of_nat places) 0 in
    binary_round_aux prec emax false q e l.

(** What the lexer holds while it reads on: nothing, the digits of an
    integer, a mantissa with its count of decimal places, or one star. *)
Inductive pending :=
| PNone
| PInt (digits : Z)
| PFrac (mantissa : Z) (places : nat) (any_digit : bool)
| PStar.

Definition flush (p : pending) : option (list lexeme) :=
  match p with
  | PNone => Some []
  | PInt n => Some [LNum (NInt n)]
  | PFrac m k true => Some [LNum (NFloat (decimal_float m k))]
  | PFrac _ _ false => None
  | PStar => Some [LOp Mul]
  end.

Definition digit_of (c : ascii) : option Z :=
  let n := Z.of_nat (nat_of_ascii c) in
  if (48 <=? n) && (n <=? 57) then Some (n - 48) else None.

Definition is_space (c : ascii) : bool :=
  let n := nat_of_ascii c in
  (Nat.eqb n 32 || Nat.eqb n 9)%bool.

(** The single-character lexemes other than the star. *)
Definition punct_of (c : ascii) : option lexeme :=
  match c with
  | "+"%char => Some (LOp Add)
  | "-"%char => Some (LOp Sub)
  | "/"%char => Some (LOp Div)
  | "("%char => Some LOpen
  | ")"%char => Some LClose
  | _ => None
  end.

Definition emit (p : pending) (here : list lexeme)
    (rest : option (list lexeme)) : option (list lexeme) :=
  match flush p, rest with
  | Some before, Some after => Some (before ++ here ++ after)%list
  | _, _ => None
  end.

Fixpoint lex_from (p : pending) (s : string) : option (list lexeme) :=
  match s with
  | EmptyString => flush p
  | String c rest =>
      match digit_of c with
      | Some d =>
          match p with
          | PInt n => lex_from (PInt (10 * n + d)) rest
          | PFrac m k _ => lex_from (PFrac (10 * m + d) (S k) true) rest
          | _ => emit p [] (lex_from (PInt d) rest)
          end
      | None =>
          if Ascii.eqb c "."%char then
            match p with
            | PInt n => lex_from (PFrac n 0 true) rest
            | _ => emit p [] (lex_from (PFrac 0 0 false) rest)
            end
          else if Ascii.eqb c "*"%char then
            match p with
            | PStar => emit PNone [LOp Pow] (lex_from PNone rest)
            | _ => emit p [] (lex_from PStar rest)
            end
          else if is_space c then emit p [] (lex_from PNone rest)
          else
            match punct_of c with
            | Some l => emit p [l] (lex_from PNone rest)
            | None => None
            end
      end
  end.

(** Modelled from the spec: the lexer of [SafeEval], which is not among
    the sources. Digits, a decimal point, the operators, parentheses
    and blanks are read; any other character ends the reading with
    nothing. *)
Definition lex (s : string) : option (list lexeme) := lex_from PNone s.

(** Operators waiting on the stack of the parser. *)
Inductive stack_op :=
| SBin (op : binop)
| SNeg
| SOpen.

Definition binop_prec (op : binop) : nat :=
  match op with
  | Add | Sub => 1
  | Mul | Div => 2
  | Pow => 4
  end.

(** Unary minus binds tighter than [*] and looser than [**]. *)
Definition stack_prec (o : stack_op) : nat :=
  match o with
  | SBin op => binop_prec op
  | SNeg => 3
  | SOpen => 0
  end.

Definition apply_op (o : stack_op) (out : list expr) : option (list expr) :=
  match o, out with
  | SBin op, r :: l :: out' => Some (EBin op l r :: out')
  | SNeg, e :: out' => Some (ENeg e :: out')
  | _, _ => None
  end.

(** Apply the waiting operators down to the first one [stop] holds of. *)
Fixpoint reduce (stop : stack_op -> bool) (ops : list stack_op)
    (out : list expr) : option (list stack_op * list expr) :=
  match ops with
  | [] => Some ([], out)
  | o :: ops' =>
      if stop o then Some (ops, out)
      else
        match apply_op o out with
        | Some out' => reduce stop ops' out'
        | None => None
        end
  end.

Definition is_open (o : stack_op) : bool :=
  match o with SOpen => true | _ => false end.

(** The waiting operators an incoming [op] leaves alone: those that
    bind looser, and its equals when it is the right-associative [**]. *)
Definition yields_to (op : binop) (o : stack_op) : bool :=
  match o with
  | SOpen => true
  | _ =>
      match op with
      | Pow => Nat.leb (stack_prec o) (binop_prec op)
      | _ => Nat.ltb (stack_prec o) (binop_prec op)
      end
  end.

(** [operand] tells whether an operand is expected next. *)
Fixpoint parse_from (ls : list lexeme) (ops : list stack_op)
    (out : list expr) (operand : bool) : option expr :=
  match ls with
  | [] =>
      if operand then None
      else
        match reduce is_open ops out with
        | Some ([], [e]) => Some e
        | _ => None
        end
  | LNum n :: ls' =>
      if operand then parse_from ls' ops (ENum n :: out) false else None
  | LOpen :: ls' =>
      if operand then parse_from ls' (SOpen :: ops) out true else None
  | LClose :: ls' =>
      if operand then None
      else
        match reduce is_open ops out with
        | Some (SOpen :: ops', out') => parse_from ls' ops' out' false
        | _ => None
        end
  | LOp op :: ls' =>
      if operand then
        match op with
        | Sub => parse_from ls' (SNeg :: ops) out true
        | _ => None
        end
      else
        match reduce (yields_to op) ops out with
        | Some (ops', out') => parse_from ls' (SBin op :: ops') out' true
        | None => None
        end
  end.

(** Modelled from the spec: the parser of [SafeEval], by operator
    precedence. [**] binds tightest and to the right, then unary minus,
    then [*] and [/], then [+] and [-]. *)
Definition parse (ls : list lexeme) : option expr :=
  parse_from ls [] [] true.

Section Arithmetic.

Variable rt : PyRuntime.

Definition num_float (n : num) : result float :=
  match n with
  | NInt z => float_of_Z z
  | NFloat f => Ok f
  end.

Definition is_zero (f : float) : bool :=
  match f with S754_zero _ => true | _ => false end.

(** [a / b] on two ints: the quotient rounded once. *)
Definition int_true_div (a b : Z) : result float :=
  if b =? 0 then Raise ZeroDivisionError
  else if a =? 0 then Ok (S754_zero false)
  else
    let '(q, e, l) :=
      SFdiv_core_binary prec emax (Z.abs a) 0 (Z.abs b) 0 in
    match binary_round_aux prec emax (xorb (a <? 0) (b <? 0)) q e l with
    | S754_infinity _ => Raise OverflowError
    | f => Ok f
    end.

Definition num_binop (op : binop) (x y : num) : result num :=
  match op, x, y with
  | Add, NInt a, NInt b => Ok (NInt (a + b))
  | Sub, NInt a, NInt b => Ok (NInt (a - b))
  | Mul, NInt a, NInt b => Ok (NInt (a * b))
  | Div, NInt a, NInt b => f <- int_true_div a b ;; Ok (NFloat f)
  | Pow, NInt a, NInt b =>
      if 0 <=? b then Ok (NInt (a ^ b))
      else
        fa <- float_of_Z a ;; fb <- float_of_Z b ;;
        f <- float_pow rt fa fb ;; Ok (NFloat f)
  | _, _, _ =>
      fx <- num_float x ;; fy <- num_float y ;;
      match op with
      | Add => Ok (NFloat (SFadd prec emax fx fy))
      | Sub => Ok (NFloat (SFsub prec emax fx fy))
      | Mul => Ok (NFloat (SFmul prec emax fx fy))
      | Div =>
          if is_zero fy then Raise ZeroDivisionError
          else Ok (NFloat (SFdiv prec emax fx fy))
      | Pow => f <- float_pow rt fx fy ;; Ok (NFloat f)
      end
  end.

Definition num_neg (x : num) : num :=
  match x with
  | NInt a => NInt (- a)
  | NFloat f => NFloat (SFopp f)
  end.

Fixpoint eval_ast (e : expr) : result num :=
  match e with
  | ENum n => Ok n
  | ENeg e => x <- eval_ast e ;; Ok (num_neg x)
  | EBin op l r =>
      x <- eval_ast l ;; y <- eval_ast r ;; num_binop op x y
  end.

(** Modelled from the spec: [booleano.SafeEval.eval_expr] is not among
    the sources. It is the restricted evaluator of the specification:
    numeric literals, [+ - * / **], parentheses and unary minus, and
    [UnsafeExpression] for any other text. *)
Definition eval_expr (s : string) : result num :=
  match lex s with
  | None => Raise UnsafeExpression
  | Some ls =>
      match parse ls with
      | None => Raise UnsafeExpression
      | Some e => eval_ast e
      end
  end.

End Arithmetic.

(** ** Text operations of the host language *)

(** [sub in s] *)
Fixpoint str_contains (sub s : string) : bool :=
  prefix sub s ||
  match s with
  | EmptyString => false
  | String _ rest => str_contains sub rest
  end.

(** [str.replace] for a non-empty [old], left to right; [skip] counts
    the characters of a match still to pass over. *)
Fixpoint replace_from (old new : string) (skip : nat) (s : string) : string :=
  match s with
  | EmptyString => EmptyString
  | String c rest =>
      match skip with
      | S k => replace_from old new k rest
      | O =>
          if prefix old s
          then new ++ replace_from old new (String.length old - 1) rest
          else String c (replace_from old new 0 rest)
      end
  end.

(** [str.replace] for an empty [old]: [new] around every character. *)
Fixpoint interleave (new s : string) : string :=
  match s with
  | EmptyString => new
  | String c rest => new ++ String c (interleave new rest)
  end.

(** [s.replace(old, new)] *)
Definition str_replace (old new s : string) : string :=
  match old with
  | EmptyString => interleave new s
  | _ => replace_from old new 0 s
  end.

(** [str.split] for a non-empty [sep]; [cur] is the piece being read. *)
Fixpoint split_from (sep : string) (skip : nat) (cur s : string)
  : list string :=
  match s with
  | EmptyString => [cur]
  | String c rest =>
      match skip with
      | S k => split_from sep k cur rest
      | O =>
          if prefix sep s
          then cur :: split_from sep (String.length sep - 1) EmptyString rest
          else split_from sep 0 (cur ++ String c EmptyString) rest
      end
  end.

(** [s.split(sep)]; an empty separator is a [ValueError]. *)
Definition str_split (sep s : string) : result (list string) :=
  match sep with
  | EmptyString => Raise ValueError
  | _ => Ok (split_from sep 0 EmptyString s)
  end.

(** ** ArithmeticVariable *)

(** The tokenizer's output: a token, or a nested group of results. *)
#[warnings="-register-all"]
Inductive parsed :=
| Token (t : string)
| Nested (l : list parsed).

(** The external registry: [get_object(name, namespaces)]. *)
Definition Namespace := string -> list string -> result Operand.

Record ArithmeticVariable := {
  namespace_separator : string;
  parsed_results : list parsed;
  required_variables : list (string * Operand);
  full_expression : string
}.

Definition is_letter (c : ascii) : bool :=
  let n := nat_of_ascii c in
  ((Nat.leb 65 n && Nat.leb n 90) || (Nat.leb 97 n && Nat.leb n 122))%bool.

(** A character of the class ["[a-zA-Z" + separator + "]"]. *)
Definition in_class (separator : string) (c : ascii) : bool :=
  (is_letter c || str_contains (String c EmptyString) separator)%bool.

(** [len(re.findall("[a-zA-Z" + separator + "]+", number)) > 0] *)
Definition looks_like_variable (separator number : string) : bool :=
  existsb (in_class separator) (list_ascii_of_string number).

(** [flatten], on one element and on a sequence. *)
Fixpoint flatten_item (p : parsed) : list string :=
  match p with
  | Token t => [t]
  | Nested l =>
      (fix flatten (s : list parsed) : list string :=
         match s with
         | [] => []
         | x :: rest => (flatten_item x ++ flatten rest)%list
         end) l
  end.

Fixpoint flatten (s : list parsed) : list string :=
  match s with
  | [] => []
  | x :: rest => (flatten_item x ++ flatten rest)%list
  end.

(** [temp[k] = val] on a dict, which keeps its keys in insertion order. *)
Fixpoint dict_set {V : Type} (k : string) (val : V) (d : list (string * V))
  : list (string * V) :=
  match d with
  | [] => [(k, val)]
  | (k', val') :: rest =>
      if String.eqb k' k then (k, val) :: rest
      else (k', val') :: dict_set k val rest
  end.

Section Variables.

Variable _namespace : Namespace.
Variable separator : string.

(** The leaf case of [__get_variable_names]. *)
Definition variable_of_token (number : string)
  : result (list (string * Operand)) :=
  if looks_like_variable separator number then
    var <- str_split separator number ;;
    let variable_namespaces := removelast var in
    let variable_name := last var EmptyString in
    v <- _namespace variable_name variable_namespaces ;;
    Ok [(number, v)]
  else Ok [].

(** [__get_variable_names]: the one-entry dicts of the identifiers
    below [number], left to right. *)
Fixpoint get_variable_names (number : parsed)
  : result (list (string * Operand)) :=
  match number with
  | Token t => variable_of_token t
  | Nested l =>
      (fix each (l : list parsed) : result (list (string * Operand)) :=
         match l with
         | [] => Ok []
         | n :: rest =>
             t <- get_variable_names n ;;
             temp <- each rest ;;
             Ok (t ++ temp)%list
         end) l
  end.

Fixpoint collect_variable_names (number : list parsed)
  : result (list (string * Operand)) :=
  match number with
  | [] => Ok []
  | n :: rest =>
      t <- get_variable_names n ;;
      temp <- collect_variable_names rest ;;
      Ok (t ++ temp)%list
  end.

(** [__define_variables]: the entries are written into one dict. *)
Definition define_variables (number : list parsed)
  : result (list (string * Operand)) :=
  temp <- collect_variable_names number ;;
  Ok (fold_left (fun d kv => dict_set (fst kv) (snd kv) d) temp []).

(** [ArithmeticVariable.__init__] *)
Definition ArithmeticVariable_init (number : list parsed)
  : result ArithmeticVariable :=
  vars <- define_variables number ;;
  Ok {| namespace_separator := separator;
        parsed_results := number;
        required_variables := vars;
        full_expression := String.concat EmptyString (flatten number) |}.

End Variables.

Section Evaluation.

Variable rt : PyRuntime.

(** The loop of [ArithmeticVariable.replace] over the entries still
    to visit. *)
Fixpoint replace_loop (separator : string)
    (entries : list (string * Operand)) (num : string)
    (context : Context) (namespace : bool) : result string :=
  match entries with
  | [] => Ok num
  | (k, v) :: rest =>
      if (namespace && negb (str_contains separator k))%bool
      then replace_loop separator rest num context namespace
      else
        value <- to_python v context ;;
        replace_loop separator rest
          (str_replace k (py_str rt value) num) context namespace
  end.

Definition ArithmeticVariable_replace (self : ArithmeticVariable)
    (num : string) (context : Context) (namespace : bool)
  : result string :=
  replace_loop (namespace_separator self) (required_variables self)
    num context namespace.

(** [ArithmeticVariable.evaluate] *)
Definition ArithmeticVariable_evaluate (self : ArithmeticVariable)
    (context : Context) : result num :=
  let number := full_expression self in
  number <- ArithmeticVariable_replace self number context true ;;
  number <- ArithmeticVariable_replace self number context false ;;
  let number := str_replace "^" "**" number in
  eval_expr rt number.

End Evaluation.

(** ** Arithmetic *)

Record Arithmetic := {
  Arithmetic_oid : nat;
  namespace_sparator : string;
  Arithmetic_constant_value : ArithmeticVariable
}.

(** [==] between an [ArithmeticVariable] and a float. The class defines
    no [__eq__], so the comparison is the default one, by identity, and
    a float is never that object. *)
Definition instance_eq_float (a : ArithmeticVariable) (f : float) : bool :=
  false.

(** [<] and [>] between an [ArithmeticVariable] and a float: the class
    defines no ordering, and Python 3 raises [TypeError]. *)
Definition instance_order_float (a : ArithmeticVariable) (f : float)
  : result bool :=
  Raise TypeError.

Section ArithmeticMethods.

Variable rt : PyRuntime.

Definition Arithmetic_init (id : nat) (number : list parsed)
    (namespace : Namespace) (namespace_separator : string)
  : result Arithmetic :=
  av <- ArithmeticVariable_init namespace namespace_separator number ;;
  Ok {| Arithmetic_oid := id;
        namespace_sparator := namespace_separator;
        Arithmetic_constant_value := av |}.

(** [Arithmetic._to_number]: [float(value)] under [except ValueError]. *)
Definition Arithmetic__to_number (value : PyVal) : result float :=
  match py_float rt value with
  | Ok f => Ok f
  | Raise ValueError => Raise (InvalidOperationError (NotANumber value))
  | Raise e => Raise e
  end.

(** [Arithmetic.equals]: [Constant.equals] on the coerced value, that
    is [self.constant_value == value]. *)
Definition Arithmetic_equals (self : Arithmetic) (value : PyVal)
    (context : Context) : result bool :=
  value <- Arithmetic__to_number value ;;
  Ok (instance_eq_float (Arithmetic_constant_value self) value).

Definition Arithmetic_greater_than (self : Arithmetic) (value : PyVal)
    (context : Context) : result bool :=
  value <- Arithmetic__to_number value ;;
  instance_order_float (Arithmetic_constant_value self) value.

Definition Arithmetic_less_than (self : Arithmetic) (value : PyVal)
    (context : Context) : result bool :=
  value <- Arithmetic__to_number value ;;
  instance_order_float (Arithmetic_constant_value self) value.

Definition Arithmetic_to_python (self : Arithmetic) (context : Context)
  : result PyVal :=
  answer <- ArithmeticVariable_evaluate rt
              (Arithmetic_constant_value self) context ;;
  Ok (num_value answer).

End ArithmeticMethods.

(** A runtime without text conversions of its own, for evaluating the
    code on inputs that need none. *)
Definition bare_runtime : PyRuntime :=
  {| float_of_text := fun _ => None;
     int_of_text := fun _ => None;
     text_of := fun _ => EmptyString;
     float_pow := fun _ _ => Raise OverflowError |}.

(** ** stockVars.StockBuyPrice *)

Section StockVariables.

Variable rt : PyRuntime.

(** [float(context['stock']['buy_price'])] *)
Definition StockBuyPrice_to_python (context : Context) : result PyVal :=
  stock <- py_getitem context "stock" ;;
  price <- py_getitem stock "buy_price" ;;
  f <- py_float rt price ;;
  Ok (PyFloat f).

Definition StockBuyPrice_equals (value : PyVal) (context : Context)
  : result bool :=
  stock <- py_getitem context "stock" ;;
  price <- py_getitem stock "buy_price" ;;
  actual <- py_float rt price ;;
  expected <- py_float rt value ;;
  Ok (SFeqb actual expected).

Definition StockBuyPrice (id : nat) : Operand :=
  {| oid := id;
     kind := "StockBuyPrice";
     constant_value := None;
     to_python := StockBuyPrice_to_python;
     equals := StockBuyPrice_equals |}.

End StockVariables.

(** ** stockVars.DateDays and stockVars.DateMonths *)

Section DateVariables.

Variable rt : PyRuntime.

(** [int(context["date"][field])] *)
Definition date_field (field : string) (context : Context) : result Z :=
  date <- py_getitem context "date" ;;
  raw <- py_getitem date field ;;
  py_int rt raw.

Definition Date_to_python (field : string) (context : Context)
  : result PyVal :=
  actual <- date_field field context ;;
  Ok (PyInt actual).

Definition Date_equals (field : string) (value : PyVal)
    (context : Context) : result bool :=
  actual <- date_field field context ;;
  expected <- py_int rt value ;;
  Ok (actual =? expected).

Definition DateDays (id : nat) : Operand :=
  {| oid := id;
     kind := "DateDays";
     constant_value := None;
     to_python := Date_to_python "days";
     equals := Date_equals "days" |}.

Definition DateMonths (id : nat) : Operand :=
  {| oid := id;
     kind := "DateMonths";
     constant_value := None;
     to_python := Date_to_python "months";
     equals := Date_equals "months" |}.

End DateVariables.

(** ** Predicates of the statements *)

(** A member that [belongs_to] passes over: its [equals] answered false
    or raised [InvalidOperationError]. *)
Definition passed_over (r : result bool) : bool :=
  match r with
  | Ok false => true
  | Raise (InvalidOperationError _) => true
  | _ => false
  end.

(** The identities of the members of a set. *)
Definition member_ids (s : SetConst) : list nat :=
  map oid (Set_constant_value s).

(** An [==] that is symmetric and transitive. *)
Definition partial_equivalence (eq : Operand -> Operand -> bool) : Prop :=
  (forall a b, eq a b = true -> eq b a = true)
  /\ (forall a b c, eq a b = true -> eq b c = true -> eq a c = true).

(** The members of [self], taken in some order, are [==] one for one to
    the members of [node]: each member of [node] has a member of [self]
    of its own. *)
Definition paired (eq : Operand -> Operand -> bool) (self node : SetConst)
  : Prop :=
  exists p,
    Permutation p (Set_constant_value self)
    /\ Forall2 (fun u e => eq u e = true) p (Set_constant_value node).

(** How many of [l] are [==] to [x]. *)
Definition count_equal (eq : Operand -> Operand -> bool) (x : Operand)
    (l : list Operand) : nat :=
  List.length (filter (fun u => eq u x) l).

(** A key that contains the namespace separator. *)
Definition qualified (separator : string) (entry : string * Operand) : bool :=
  str_contains separator (fst entry).

(** The characters the restricted grammar is written in. *)
Definition in_grammar (c : ascii) : bool :=
  match digit_of c, punct_of c with
  | None, None =>
      (Ascii.eqb c "."%char || Ascii.eqb c "*"%char || is_space c)%bool
  | _, _ => true
  end.

Definition foreign_text (s : string) : bool :=
  existsb (fun c => negb (in_grammar c)) (list_ascii_of_string s).

(** The evaluation of a plain numeric string in the expression
    language, whose exponent sign is [^]: no substitution at all. *)
Definition plain_numeric_eval (rt : PyRuntime) (s : string) : result num :=
  eval_expr rt (str_replace "^" "**" s).

(** ** Inputs of the examples *)

Definition string_a (id : nat) : Operand :=
  String_operand bare_runtime (String_init bare_runtime id (PyStr "a")).

Definition set_of_members (id : nat) (members : list Operand) : SetConst :=
  {| Set_oid := id; Set_constant_value := set_of members |}.

(** A set that visits a stock variable before the string ["abc"]. *)
Definition price_then_abc : SetConst :=
  set_of_members 3
    [StockBuyPrice bare_runtime 1;
     String_operand bare_runtime (String_init bare_runtime 2 (PyStr "abc"))].

(** [ns:x] is [DateDays] and the bare [x] is [DateMonths]. *)
Definition date_namespace : Namespace :=
  fun name namespaces =>
    match name, namespaces with
    | "x", ["ns"] => Ok (DateDays bare_runtime 1)
    | "x", [] => Ok (DateMonths bare_runtime 2)
    | _, _ => Raise (KeyError name)
    end.

Definition five_and_two : Context :=
  PyDict [("date", PyDict [("days", PyInt 5); ("months", PyInt 2)])].

(** Two sets of two strings ["a"] each: four objects, equal in what
    they hold. *)
Definition two_strings_a : SetConst :=
  set_of_members 10 [string_a 1; string_a 2].

Definition two_other_strings_a : SetConst :=
  set_of_members 11 [string_a 3; string_a 4].

(** The float 2.5 *)
Definition two_and_a_half : float := S754_finite false 5 (-1).

(** [ns:x + x] and [x + ns:x] as the tokenizer hands them over. *)
Definition qualified_then_bare : list parsed :=
  [Token "ns:x"; Token "+"; Token "x"].

Definition bare_then_qualified : list parsed :=
  [Token "x"; Token "+"; Token "ns:x"].

Definition one_semicolon_two : list parsed :=
  [Token "1"; Token ";"; Token "2"].

(** [2^(1+2)], the sum in a nested group. *)
Definition nested_sum : list parsed :=
  [Token "2"; Token "^";
   Nested [Token "("; Token "1"; Token "+"; Token "2"; Token ")"]].

(** The literal [1] as the tokenizer hands it over. *)
Definition literal_one : list parsed := [Token "1"].

Definition two_pow_53_plus_1 : Z := 9007199254740993.

(** ** More of the methods *)

(** [ArithmeticVariable.__str__]: the tokens flattened and joined anew. *)
Definition ArithmeticVariable_str (self : ArithmeticVariable) : string :=
  String.concat EmptyString (flatten (parsed_results self)).

Section DateComparisons.

Variable rt : PyRuntime.

(** [greater_than] and [less_than] of [DateDays], [DateMonths] and
    their like: [int(context["date"][field])] against [int(value)]. *)
Definition Date_greater_than (field : string) (value : PyVal)
    (context : Context) : result bool :=
  actual <- date_field rt field context ;;
  expected <- py_int rt value ;;
  Ok (expected <? actual).

Definition Date_less_than (field : string) (value : PyVal)
    (context : Context) : result bool :=
  actual <- date_field rt field context ;;
  expected <- py_int rt value ;;
  Ok (actual <? expected).

Definition StockBuyPrice_greater_than (value : PyVal) (context : Context)
  : result bool :=
  stock <- py_getitem context "stock" ;;
  price <- py_getitem stock "buy_price" ;;
  actual <- py_float rt price ;;
  expected <- py_float rt value ;;
  Ok (SFltb expected actual).

Definition StockBuyPrice_less_than (value : PyVal) (context : Context)
  : result bool :=
  stock <- py_getitem context "stock" ;;
  price <- py_getitem stock "buy_price" ;;
  actual <- py_float rt price ;;
  expected <- py_float rt value ;;
  Ok (SFltb actual expected).

End DateComparisons.

(** ** More predicates of the statements *)

Definition is_nan (f : float) : bool :=
  match f with S754_nan => true | _ => false end.

(** The entries [__get_variable_names] yields on a flat token list. *)
Fixpoint token_variables (ns : Namespace) (sep : string)
    (tokens : list string) : result (list (string * Operand)) :=
  match tokens with
  | [] => Ok []
  | t :: rest =>
      x <- variable_of_token ns sep t ;;
      xs <- token_variables ns sep rest ;;
      Ok (x ++ xs)%list
  end.

(** A token that is no identifier, or one the namespace resolves. *)
Definition resolves (ns : Namespace) (sep t : string) : bool :=
  match variable_of_token ns sep t with
  | Ok _ => true
  | Raise _ => false
  end.

(** [s[n:]] *)
Fixpoint drop (n : nat) (s : string) : string :=
  match n, s with
  | O, _ => s
  | S k, String _ rest => drop k rest
  | S _, EmptyString => EmptyString
  end.

(** A member that is a [String] or a [Number]. *)
Definition is_constant (rt : PyRuntime) (o : Operand) : Prop :=
  (exists s : StringConst, o = String_operand rt s)
  \/ (exists n : Number, o = Number_operand rt n).

(** A value [float] converts or refuses with [ValueError]: text, a
    float, a boolean, an int within the range of floats. *)
Definition floatable (rt : PyRuntime) (v : PyVal) : bool :=
  match py_float rt v with
  | Ok _ | Raise ValueError => true
  | Raise _ => false
  end.


(** ** More inputs of the examples *)

Definition number_three : Number :=
  {| Number_oid := 1;
     Number_constant_value := S754_finite false 6755399441055744 (-51) |}.

(** A set of the number 3 and the string ["abc"]. *)
Definition three_and_abc : SetConst :=
  set_of_members 4
    [Number_operand bare_runtime number_three;
     String_operand bare_runtime (String_init bare_runtime 2 (PyStr "abc"))].

Definition buy_price_three : Context :=
  PyDict [("stock", PyDict [("buy_price", PyInt 3)])].

(** [ns:x + x] as [ArithmeticVariable.__init__] builds it under
    [date_namespace]. *)
Definition days_plus_months : ArithmeticVariable :=
  {| namespace_separator := ":";
     parsed_results := qualified_then_bare;
     required_variables :=
       [("ns:x", DateDays bare_runtime 1); ("x", DateMonths bare_runtime 2)];
     full_expression := "ns:x+x" |}.

(** * Properties *)

(** ** String *)


(** ** Number *)

Lemma Number__to_number_text :
  forall (rt : PyRuntime) (s : string),
    float_of_text rt s = None ->
    Number__to_number rt (PyStr s)
    = Raise (InvalidOperationError (NotANumber (PyStr s))).
Proof.
  intros rt s H. unfold Number__to_number; simpl. now rewrite H.
Qed.

(** C4. On [None] and on a list the coercion of [Number] lets the
    [TypeError] of [float] through: the three comparisons raise it
    instead of [InvalidOperationError]. *)
Theorem Number_comparisons_raise_TypeError :
  forall (rt : PyRuntime) (n : Number) (l : list PyVal) (ctx : Context),
    Number_equals rt n PyNone ctx = Raise TypeError
    /\ Number_greater_than rt n PyNone ctx = Raise TypeError
    /\ Number_less_than rt n PyNone ctx = Raise TypeError
    /\ Number_equals rt n (PyList l) ctx = Raise TypeError
    /\ Number_greater_than rt n (PyList l) ctx = Raise TypeError
    /\ Number_less_than rt n (PyList l) ctx = Raise TypeError.
Proof.
  intros; repeat split.
Qed.

(** ** Arithmetic *)

Lemma Arithmetic_equals_never_true :
  forall (rt : PyRuntime) (a : Arithmetic) (v : PyVal) (ctx : Context),
    Arithmetic_equals rt a v ctx <> Ok true.
Proof.
  intros rt a v ctx. unfold Arithmetic_equals.
  destruct (Arithmetic__to_number rt v); simpl; discriminate.
Qed.

(** C1. The literal [1] evaluates to 1 under every context, yet
    [equals(1, ctx)] answers false and the two orderings raise
    [TypeError]: the comparisons look at the [ArithmeticVariable]
    object, not at the evaluated result. *)
Theorem Arithmetic_comparisons_miss_the_result :
  forall (rt : PyRuntime) (ns : Namespace) (id : nat) (ctx : Context),
  exists a : Arithmetic,
    Arithmetic_init id literal_one ns ":" = Ok a
    /\ Arithmetic_to_python rt a ctx = Ok (PyInt 1)
    /\ Arithmetic_equals rt a (PyInt 1) ctx = Ok false
    /\ Arithmetic_greater_than rt a (PyInt 0) ctx = Raise TypeError
    /\ Arithmetic_less_than rt a (PyInt 2) ctx = Raise TypeError.
Proof.
  intros rt ns id ctx. eexists. split; [reflexivity|].
  repeat split.
Qed.

(** ** Set: cardinality *)

(** C10. [less_than] and [greater_than] answer the same under any two
    contexts: the answer is the comparison of the coerced value with
    the number of stored members. *)
Theorem Set_cardinality_ignores_context :
  forall (rt : PyRuntime) (s : SetConst) (v : PyVal) (c1 c2 : Context),
    Set_less_than rt s v c1 = Set_less_than rt s v c2
    /\ Set_greater_than rt s v c1 = Set_greater_than rt s v c2
    /\ Set_less_than rt s v c1
       = (k <- Set__to_int rt v ;;
          Ok (Z.of_nat (List.length (Set_constant_value s)) <? k))
    /\ Set_greater_than rt s v c1
       = (k <- Set__to_int rt v ;;
          Ok (k <? Z.of_nat (List.length (Set_constant_value s)))).
Proof.
  intros; repeat split.
Qed.

(** Integers up to [2^53] are floats. *)

Lemma digits2_pos_iter_xO :
  forall (n m : positive),
    digits2_pos (Pos.iter xO m n) = (digits2_pos m + n)%positive.
Proof.
  intros n m. induction n as [|n IH] using Pos.peano_ind.
  - simpl. lia.
  - rewrite Pos.iter_succ. simpl. rewrite IH. lia.
Qed.

Lemma Zpos_iter_xO :
  forall (n m : positive),
    Zpos (Pos.iter xO m n) = Zpos m * 2 ^ Zpos n.
Proof.
  intros n m. induction n as [|n IH] using Pos.peano_ind.
  - simpl. lia.
  - rewrite Pos.iter_succ. rewrite Pos2Z.inj_xO, IH.
    rewrite Pos2Z.inj_succ, Z.pow_succ_r by lia. ring.
Qed.

Lemma digits2_pos_bound :
  forall m : positive, Zpos m < 2 ^ Zpos (digits2_pos m).
Proof.
  induction m as [m IH|m IH|]; simpl digits2_pos.
  - rewrite Pos2Z.inj_succ, Z.pow_succ_r by lia. lia.
  - rewrite Pos2Z.inj_succ, Z.pow_succ_r by lia. lia.
  - simpl. lia.
Qed.

Lemma digits2_pos_small :
  forall m : positive, Zpos m < 2 ^ 53 -> Zpos (digits2_pos m) <= 53.
Proof.
  intros m H.
  assert (2 ^ (Zpos (digits2_pos m) - 1) <= Zpos m) as Hlow.
  { clear H. induction m as [m IH|m IH|]; simpl digits2_pos.
    - rewrite Pos2Z.inj_succ. replace (Z.succ (Zpos (digits2_pos m)) - 1)
        with (Z.succ (Zpos (digits2_pos m) - 1)) by lia.
      rewrite Z.pow_succ_r by lia. lia.
    - rewrite Pos2Z.inj_succ. replace (Z.succ (Zpos (digits2_pos m)) - 1)
        with (Z.succ (Zpos (digits2_pos m) - 1)) by lia.
      rewrite Z.pow_succ_r by lia. lia.
    - simpl. lia. }
  destruct (Z_le_gt_dec (Zpos (digits2_pos m)) 53) as [|Hgt]; auto.
  exfalso.
  assert (2 ^ 53 <= 2 ^ (Zpos (digits2_pos m) - 1))
    by (apply Z.pow_le_mono_r; lia).
  lia.
Qed.

Lemma binary_round_aux_canonical :
  forall (s : bool) (mz : positive) (ez : Z),
    Zpos (digits2_pos mz) = 53 -> -1074 <= ez <= 971 ->
    binary_round_aux prec emax s (Zpos mz) ez loc_Exact
    = S754_finite s mz ez.
Proof.
  intros s mz ez Hd He.
  assert (fexp prec emax (Zdigits2 (Zpos mz) + ez) - ez = 0) as Hshift
    by (unfold fexp, emin, prec, emax, Zdigits2; lia).
  unfold binary_round_aux, shr_fexp.
  rewrite Hshift. cbn [shr shr_record_of_loc shr_m loc_of_shr_record
                       round_nearest_even].
  rewrite Hshift. cbn [shr shr_record_of_loc shr_m].
  assert ((ez <=? emax - prec) = true) as ->
    by (apply Z.leb_le; unfold emax, prec; lia).
  reflexivity.
Qed.

Lemma binary_round_small :
  forall (s : bool) (m : positive),
    Zpos m < 2 ^ 53 ->
    exists (mz : positive) (ez : Z),
      binary_round prec emax s m 0 = S754_finite s mz ez
      /\ ez <= 0 /\ Zpos mz = Zpos m * 2 ^ (- ez).
Proof.
  intros s m H. apply digits2_pos_small in H.
  unfold binary_round.
  replace (fexp prec emax (Zpos (digits2_pos m) + 0))
    with (Zpos (digits2_pos m) - 53)
    by (unfold fexp, emin, prec, emax; lia).
  unfold shl_align. rewrite Z.sub_0_r.
  destruct (Zpos (digits2_pos m) - 53) as [|n|n] eqn:Hn; try lia.
  - exists m, 0. split; [|split; [lia|simpl; lia]].
    apply binary_round_aux_canonical; lia.
  - exists (Pos.iter xO m n), (Zneg n).
    split; [|split; [lia|]].
    + apply binary_round_aux_canonical; [|lia].
      rewrite digits2_pos_iter_xO. lia.
    + rewrite Zpos_iter_xO. reflexivity.
Qed.

Lemma float_of_Z_small :
  forall k : Z,
    Z.abs k < 2 ^ 53 ->
    exists f, float_of_Z k = Ok f /\ int_eq_float k f = true.
Proof.
  intros k H. unfold float_of_Z, binary_normalize.
  destruct k as [|m|m].
  - exists (S754_zero false). split; reflexivity.
  - destruct (binary_round_small false m H) as (mz & ez & -> & Hez & Hmz).
    exists (S754_finite false mz ez). split; [reflexivity|].
    unfold int_eq_float.
    assert (Z.shiftl (Zpos mz) ez = Zpos m) as ->.
    { rewrite Hmz. rewrite <- (Z.opp_involutive ez) at 2.
      rewrite Z.shiftl_opp_r, Z.shiftr_div_pow2 by lia.
      apply Z.div_mul. apply Z.pow_nonzero; lia. }
    rewrite Z.shiftl_mul_pow2 by lia. rewrite <- Hmz.
    now rewrite !Z.eqb_refl.
  - assert (Zpos m < 2 ^ 53) as H' by (simpl in H; exact H).
    destruct (binary_round_small true m H') as (mz & ez & -> & Hez & Hmz).
    exists (S754_finite true mz ez). split; [reflexivity|].
    unfold int_eq_float.
    assert (Z.shiftl (Zpos mz) ez = Zpos m) as ->.
    { rewrite Hmz. rewrite <- (Z.opp_involutive ez) at 2.
      rewrite Z.shiftl_opp_r, Z.shiftr_div_pow2 by lia.
      apply Z.div_mul. apply Z.pow_nonzero; lia. }
    rewrite Z.shiftl_mul_pow2 by lia. rewrite <- Hmz.
    rewrite Z.eqb_refl. simpl. apply Pos.eqb_refl.
Qed.

Lemma float_of_Z_exact_range :
  forall k : Z,
    Z.abs k <= 2 ^ 53 ->
    exists f, float_of_Z k = Ok f /\ int_eq_float k f = true.
Proof.
  intros k H.
  destruct (Z.eq_dec (Z.abs k) (2 ^ 53)) as [Hmax|Hless].
  - assert (k = 2 ^ 53 \/ k = - 2 ^ 53) as [->| ->] by lia;
      eexists; split; vm_compute; reflexivity.
  - apply float_of_Z_small. lia.
Qed.

Lemma Set__to_int_exact :
  forall (rt : PyRuntime) (k : Z) (f : float),
    float_of_Z k = Ok f -> int_eq_float k f = true ->
    Set__to_int rt (PyInt k) = Ok k.
Proof.
  intros rt k f Hf He. unfold Set__to_int; simpl.
  now rewrite Hf; simpl; rewrite He.
Qed.

Lemma Set__to_int_inexact :
  forall (rt : PyRuntime) (v : PyVal) (i : Z) (f : float),
    py_int rt v = Ok i -> py_float rt v = Ok f ->
    int_eq_float i f = false ->
    Set__to_int rt v = Raise (InvalidOperationError (NotAnInteger v)).
Proof.
  intros rt v i f Hi Hf He. unfold Set__to_int.
  now rewrite Hi; simpl; rewrite Hf; simpl; rewrite He.
Qed.

(** Where the coercion lets a value through. For an integer [k] that
    [float(k)] represents exactly, as every [k] with [|k| <= 2^53] is,
    [less_than] and [greater_than] compare the number of members with
    [k]; a value whose [int] and [float] differ is refused by both. *)
Lemma Set_cardinality_comparisons :
  forall (rt : PyRuntime) (s : SetConst) (ctx : Context),
    (forall k : Z,
        Z.abs k <= 2 ^ 53 ->
        Set_less_than rt s (PyInt k) ctx
        = Ok (Z.of_nat (List.length (Set_constant_value s)) <? k)
        /\ Set_greater_than rt s (PyInt k) ctx
           = Ok (k <? Z.of_nat (List.length (Set_constant_value s))))
    /\ (forall (k : Z) (f : float),
          float_of_Z k = Ok f -> int_eq_float k f = true ->
          Set_less_than rt s (PyInt k) ctx
          = Ok (Z.of_nat (List.length (Set_constant_value s)) <? k)
          /\ Set_greater_than rt s (PyInt k) ctx
             = Ok (k <? Z.of_nat (List.length (Set_constant_value s))))
    /\ (forall (v : PyVal) (i : Z) (f : float),
          py_int rt v = Ok i -> py_float rt v = Ok f ->
          int_eq_float i f = false ->
          Set_less_than rt s v ctx
          = Raise (InvalidOperationError (NotAnInteger v))
          /\ Set_greater_than rt s v ctx
             = Raise (InvalidOperationError (NotAnInteger v))).
Proof.
  intros rt s ctx.
  assert (forall (k : Z) (f : float),
             float_of_Z k = Ok f -> int_eq_float k f = true ->
             Set_less_than rt s (PyInt k) ctx
             = Ok (Z.of_nat (List.length (Set_constant_value s)) <? k)
             /\ Set_greater_than rt s (PyInt k) ctx
                = Ok (k <? Z.of_nat (List.length (Set_constant_value s))))
    as exact.
  { intros k f Hf He. unfold Set_less_than, Set_greater_than.
    now rewrite (Set__to_int_exact rt k f Hf He). }
  split; [|split].
  - intros k Hk.
    destruct (float_of_Z_exact_range k Hk) as (f & Hf & He). eauto.
  - exact exact.
  - intros v i f Hi Hf He. unfold Set_less_than, Set_greater_than.
    now rewrite (Set__to_int_inexact rt v i f Hi Hf He).
Qed.

Lemma Set_cardinality_comparisons_witness :
  (Set_less_than bare_runtime price_then_abc (PyInt 3) PyNone = Ok true
   /\ Set_greater_than bare_runtime price_then_abc (PyInt 3) PyNone
      = Ok false)
  /\ (Set_less_than bare_runtime price_then_abc (PyInt (2 ^ 60)) PyNone
      = Ok true
      /\ Set_greater_than bare_runtime price_then_abc (PyInt (2 ^ 60))
           PyNone
         = Ok false)
  /\ (Set_less_than bare_runtime price_then_abc (PyFloat two_and_a_half)
        PyNone
      = Raise (InvalidOperationError (NotAnInteger (PyFloat two_and_a_half)))
      /\ Set_greater_than bare_runtime price_then_abc
           (PyFloat two_and_a_half) PyNone
         = Raise (InvalidOperationError
                    (NotAnInteger (PyFloat two_and_a_half)))).
Proof.
  destruct (Set_cardinality_comparisons bare_runtime price_then_abc PyNone)
    as (small & exact & inexact).
  split; [|split].
  - apply (small 3). vm_compute. discriminate.
  - apply (exact (2 ^ 60) (S754_finite false 4503599627370496 8));
      reflexivity.
  - apply (inexact (PyFloat two_and_a_half) 2 two_and_a_half); reflexivity.
Defined.

(** C5. The integer [2^53 + 1] is refused: [float] rounds it to
    [2^53], the comparison with [int] fails and both [less_than] and
    [greater_than] raise [InvalidOperationError] for a value that is an
    integer, where the docstrings promise the cardinality compared with
    it. Its neighbour [2^53 + 2], which a float represents, is
    compared. *)
Theorem Set_comparisons_refuse_an_integer :
  forall (rt : PyRuntime) (s : SetConst) (ctx : Context),
    Set_less_than rt s (PyInt two_pow_53_plus_1) ctx
    = Raise (InvalidOperationError (NotAnInteger (PyInt two_pow_53_plus_1)))
    /\ Set_greater_than rt s (PyInt two_pow_53_plus_1) ctx
       = Raise (InvalidOperationError
                  (NotAnInteger (PyInt two_pow_53_plus_1)))
    /\ Set_less_than rt s (PyInt two_pow_53_plus_1) ctx
       <> Ok (Z.of_nat (List.length (Set_constant_value s))
              <? two_pow_53_plus_1)
    /\ Set_greater_than rt s (PyInt two_pow_53_plus_1) ctx
       <> Ok (two_pow_53_plus_1
              <? Z.of_nat (List.length (Set_constant_value s)))
    /\ Set_less_than rt s (PyInt (two_pow_53_plus_1 + 1)) ctx
       = Ok (Z.of_nat (List.length (Set_constant_value s))
             <? two_pow_53_plus_1 + 1)
    /\ Set_greater_than rt s (PyInt (two_pow_53_plus_1 + 1)) ctx
       = Ok (two_pow_53_plus_1 + 1
             <? Z.of_nat (List.length (Set_constant_value s))).
Proof.
  intros rt s ctx.
  assert (Set__to_int rt (PyInt two_pow_53_plus_1)
          = Raise (InvalidOperationError
                     (NotAnInteger (PyInt two_pow_53_plus_1)))) as refused
    by (apply (Set__to_int_inexact rt _ two_pow_53_plus_1
                 (S754_finite false 4503599627370496 1));
        reflexivity).
  assert (Set__to_int rt (PyInt (two_pow_53_plus_1 + 1))
          = Ok (two_pow_53_plus_1 + 1)) as accepted
    by (apply (Set__to_int_exact rt _
                 (S754_finite false 4503599627370497 1));
        reflexivity).
  unfold Set_less_than, Set_greater_than. rewrite refused, accepted.
  repeat split; discriminate.
Qed.

(** ** Set: membership *)

Lemma belongs_to_loop_true :
  forall (v : PyVal) (ctx : Context) (members : list Operand),
    belongs_to_loop members v ctx = Ok true <->
    exists before m after,
      members = (before ++ m :: after)%list
      /\ equals m v ctx = Ok true
      /\ Forall (fun o => passed_over (equals o v ctx) = true) before.
Proof.
  intros v ctx. induction members as [|m rest IH]; simpl.
  - split; [discriminate|].
    intros (before & m & after & Heq & _). now destruct before.
  - split.
    + intros H. destruct (equals m v ctx) as [[|]|e] eqn:Hm.
      * exists [], m, rest. repeat split; auto.
      * apply IH in H. destruct H as (before & m' & after & -> & Ht & Hb).
        exists (m :: before), m', after. repeat split; auto.
        constructor; auto. now rewrite Hm.
      * destruct e; try discriminate.
        apply IH in H. destruct H as (before & m' & after & -> & Ht & Hb).
        exists (m :: before), m', after. repeat split; auto.
        constructor; auto. now rewrite Hm.
    + intros (before & m' & after & Heq & Ht & Hb).
      destruct before as [|b before]; simpl in Heq; inversion Heq; subst.
      * now rewrite Ht.
      * inversion Hb as [|? ? Hp Hrest]; subst.
        assert (belongs_to_loop (before ++ m' :: after) v ctx = Ok true)
          as Hgoal by (apply IH; eauto 6).
        destruct (equals b v ctx) as [[|]|e]; auto.
        destruct e; auto; discriminate.
Qed.

Lemma belongs_to_loop_false :
  forall (v : PyVal) (ctx : Context) (members : list Operand),
    belongs_to_loop members v ctx = Ok false <->
    Forall (fun o => passed_over (equals o v ctx) = true) members.
Proof.
  intros v ctx. induction members as [|m rest IH]; simpl.
  - split; auto.
  - split.
    + intros H. destruct (equals m v ctx) as [[|]|e] eqn:Hm.
      * discriminate.
      * constructor; [now rewrite Hm | now apply IH].
      * destruct e; try discriminate.
        constructor; [now rewrite Hm | now apply IH].
    + intros H. inversion H as [|? ? Hp Hrest]; subst.
      apply IH in Hrest.
      destruct (equals m v ctx) as [[|]|e]; try discriminate; auto.
      destruct e; auto; discriminate.
Qed.

Lemma Set_is_subset_true :
  forall (s : SetConst) (ctx : Context) (vs : list PyVal),
    Set_is_subset s vs ctx = Ok true <->
    Forall (fun v => Set_belongs_to s v ctx = Ok true) vs.
Proof.
  intros s ctx. induction vs as [|v rest IH]; simpl.
  - split; auto.
  - split.
    + intros H. destruct (Set_belongs_to s v ctx) as [[|]|e] eqn:Hv;
        simpl in H; try discriminate.
      constructor; [exact Hv | now apply IH].
    + intros H. inversion H as [|? ? Hv Hrest]; subst.
      rewrite Hv; simpl. now apply IH.
Qed.

Lemma belongs_to_loop_raise :
  forall (v : PyVal) (ctx : Context) (e : exn) (members : list Operand),
    belongs_to_loop members v ctx = Raise e <->
    exists before m after,
      members = (before ++ m :: after)%list
      /\ equals m v ctx = Raise e
      /\ (forall reason, e <> InvalidOperationError reason)
      /\ Forall (fun o => passed_over (equals o v ctx) = true) before.
Proof.
  intros v ctx e. induction members as [|m rest IH]; simpl.
  - split; [discriminate|].
    intros (before & m & after & Heq & _). now destruct before.
  - split.
    + intros H. destruct (equals m v ctx) as [[|]|e'] eqn:Hm.
      * discriminate.
      * apply IH in H.
        destruct H as (before & m' & after & -> & Hr & Hne & Hb).
        exists (m :: before), m', after. repeat split; auto.
        constructor; auto. now rewrite Hm.
      * destruct e';
          try (inversion H; subst; exists [], m, rest;
               split; [reflexivity|]; split; [exact Hm|];
               split; [intros reason; discriminate | constructor]).
        apply IH in H.
        destruct H as (before & m' & after & -> & Hr & Hne & Hb).
        exists (m :: before), m', after. repeat split; auto.
        constructor; auto. now rewrite Hm.
    + intros (before & m' & after & Heq & Hr & Hne & Hb).
      destruct before as [|b before]; simpl in Heq; inversion Heq; subst.
      * rewrite Hr. destruct e; auto. exfalso. eapply Hne. reflexivity.
      * inversion Hb as [|? ? Hp Hrest]; subst.
        assert (belongs_to_loop (before ++ m' :: after) v ctx = Raise e)
          as Hgoal by (apply IH; eauto 8).
        destruct (equals b v ctx) as [[|]|e']; auto; try discriminate.
        destruct e'; auto; discriminate.
Qed.

(** C6, as amended. [belongs_to] returns true iff some member's
    [equals] returns true and every member visited before it answered
    false or raised [InvalidOperationError]; it returns false iff every
    member did so; [is_subset] returns true iff every element passes
    [belongs_to]; and [belongs_to] raises an exception iff a member's
    [equals] raised it, it is no [InvalidOperationError], and every
    member visited before answered false or raised
    [InvalidOperationError]. *)
Theorem Set_membership_scan :
  forall (s : SetConst) (v : PyVal) (vs : list PyVal) (ctx : Context),
    (Set_belongs_to s v ctx = Ok true <->
     exists before m after,
       Set_constant_value s = (before ++ m :: after)%list
       /\ equals m v ctx = Ok true
       /\ Forall (fun o => passed_over (equals o v ctx) = true) before)
    /\ (Set_belongs_to s v ctx = Ok false <->
        Forall (fun o => passed_over (equals o v ctx) = true)
               (Set_constant_value s))
    /\ (Set_is_subset s vs ctx = Ok true <->
        Forall (fun v => Set_belongs_to s v ctx = Ok true) vs)
    /\ (forall e : exn,
          Set_belongs_to s v ctx = Raise e <->
          exists before m after,
            Set_constant_value s = (before ++ m :: after)%list
            /\ equals m v ctx = Raise e
            /\ (forall reason, e <> InvalidOperationError reason)
            /\ Forall (fun o => passed_over (equals o v ctx) = true)
                      before).
Proof.
  intros s v vs ctx. split; [|split; [|split]].
  - apply belongs_to_loop_true.
  - apply belongs_to_loop_false.
  - apply Set_is_subset_true.
  - intros e. apply belongs_to_loop_raise.
Qed.

(** C6, as stated, fails when a member raises another exception before
    the match: the string ["abc"] equals the value, but the stock
    variable visited first raises [KeyError] on an empty context. *)
Lemma Set_belongs_to_propagates_KeyError :
  (exists m, In m (Set_constant_value price_then_abc)
             /\ equals m (PyStr "abc") (PyDict []) = Ok true)
  /\ Set_belongs_to price_then_abc (PyStr "abc") (PyDict [])
     = Raise (KeyError "stock")
  /\ Set_belongs_to price_then_abc (PyStr "abc") (PyDict []) <> Ok true.
Proof.
  split; [|split].
  - eexists. split; [right; left; reflexivity | reflexivity].
  - reflexivity.
  - discriminate.
Qed.

(** ** Set: equivalence *)

Lemma same_object_true :
  forall a b : Operand, same_object a b = true <-> oid a = oid b.
Proof. intros a b. apply Nat.eqb_eq. Qed.

Lemma NoDup_ids_filter :
  forall (keep : Operand -> bool) (l : list Operand),
    NoDup (map oid l) -> NoDup (map oid (filter keep l)).
Proof.
  intros keep. induction l as [|u l IH]; simpl; intros H; auto.
  inversion H as [|? ? Hnotin Hrest]; subst.
  destruct (keep u); simpl; auto.
  constructor; auto.
  intros Hin. apply Hnotin.
  apply in_map_iff in Hin. destruct Hin as (w & Hw & Hin).
  apply filter_In in Hin. apply in_map_iff. exists w. tauto.
Qed.

Lemma set_of_distinct :
  forall items : list Operand, NoDup (map oid (set_of items)).
Proof.
  induction items as [|o rest IH]; simpl.
  - constructor.
  - constructor.
    + intros Hin. apply in_map_iff in Hin. destruct Hin as (w & Hw & Hin).
      apply filter_In in Hin. destruct Hin as [_ Hneq].
      apply negb_true_iff in Hneq.
      assert (same_object o w = true) by now apply same_object_true.
      congruence.
    + now apply NoDup_ids_filter.
Qed.

(** The members a constructed set stores are distinct objects. *)
Lemma Set_init_distinct :
  forall (id : nat) (items : list item) (s : SetConst),
    Set_init id items = Ok s -> NoDup (member_ids s).
Proof.
  intros id items s H. unfold Set_init in H.
  destruct (check_items items) as [os|e]; simpl in H; [|discriminate].
  inversion H; subst. unfold member_ids; simpl. apply set_of_distinct.
Qed.

Lemma count_equal_cons :
  forall (eq : Operand -> Operand -> bool) (x u : Operand)
         (l : list Operand),
    count_equal eq x (u :: l)
    = ((if eq u x then 1 else 0) + count_equal eq x l)%nat.
Proof.
  intros eq x u l. unfold count_equal; simpl.
  destruct (eq u x); reflexivity.
Qed.

Lemma Forall2_partner :
  forall (R : Operand -> Operand -> Prop) (p others : list Operand)
         (w : Operand),
    Forall2 R p others -> In w p -> exists e, In e others /\ R w e.
Proof.
  intros R p others w H. induction H as [|u e p others Hue _ IH]; simpl.
  - intros [].
  - intros [->|Hin].
    + exists e. auto.
    + destruct (IH Hin) as (e' & He' & Hr). exists e'. auto.
Qed.

Section Matching.

Variable operand_eq : Operand -> Operand -> bool.

Lemma delete_first_incl :
  forall (element : Operand) (l : list Operand),
    incl (delete_first operand_eq element l) l.
Proof.
  intros element. induction l as [|u l IH]; simpl.
  - apply incl_refl.
  - destruct (operand_eq u element).
    + apply incl_tl, incl_refl.
    + apply incl_cons; [now left | now apply incl_tl].
Qed.

Lemma fold_delete_first_incl :
  forall others l : list Operand,
    incl (fold_left
            (fun unmatched element =>
               delete_first operand_eq element unmatched)
            others l) l.
Proof.
  induction others as [|e others IH]; simpl; intros l.
  - apply incl_refl.
  - eapply incl_tran; [apply IH | apply delete_first_incl].
Qed.

(** One round of the inner loop: nothing to delete, or the first
    element [==] to [element] goes. *)
Lemma delete_first_split :
  forall (element : Operand) (l : list Operand),
    (delete_first operand_eq element l = l
     /\ Forall (fun u => operand_eq u element = false) l)
    \/ exists pre u post,
         l = (pre ++ u :: post)%list
         /\ operand_eq u element = true
         /\ delete_first operand_eq element l = (pre ++ post)%list.
Proof.
  intros element. induction l as [|u l IH]; simpl.
  - left. auto.
  - destruct (operand_eq u element) eqn:Hu.
    + right. exists [], u, l. auto.
    + destruct IH as [[Heq Hall]|(pre & w & post & Hl & Hw & Heq)].
      * left. rewrite Heq. auto.
      * right. exists (u :: pre), w, post. simpl.
        rewrite Heq, Hl at 1. auto.
Qed.



Lemma delete_first_length :
  forall (element : Operand) (l : list Operand),
    (List.length l <= S (List.length (delete_first operand_eq element l)))%nat.
Proof.
  intros element l.
  destruct (delete_first_split element l)
    as [[Heq _]|(pre & u & post & Hl & _ & Heq)]; rewrite Heq.
  - lia.
  - rewrite Hl, !length_app. simpl. lia.
Qed.

Lemma fold_delete_first_length :
  forall others l : list Operand,
    (List.length l
     <= List.length
          (fold_left
             (fun unmatched element =>
                delete_first operand_eq element unmatched)
             others l)
        + List.length others)%nat.
Proof.
  induction others as [|e others IH]; simpl; intros l.
  - lia.
  - specialize (IH (delete_first operand_eq e l)).
    pose proof (delete_first_length e l). lia.
Qed.

(** When the loops leave nothing, the deleted elements pair the
    members off. *)
Lemma fold_delete_first_paired :
  forall others l : list Operand,
    List.length l = List.length others ->
    fold_left
      (fun unmatched element => delete_first operand_eq element unmatched)
      others l = [] ->
    exists p,
      Permutation p l
      /\ Forall2 (fun u e => operand_eq u e = true) p others.
Proof.
  induction others as [|e others IH]; simpl; intros l Hlen H.
  - exists []. subst l. split; constructor.
  - destruct (delete_first_split e l)
      as [[Heq _]|(pre & u & post & Hl & Hu & Heq)].
    + rewrite Heq in H.
      pose proof (fold_delete_first_length others l) as Hle.
      rewrite H in Hle. simpl in Hle. lia.
    + rewrite Heq in H.
      destruct (IH (pre ++ post)%list) as (p & Hp & Hf); auto.
      { rewrite Hl in Hlen. rewrite length_app in *. simpl in Hlen. lia. }
      exists (u :: p). split.
      * rewrite Hl. now apply Permutation_cons_app.
      * constructor; auto.
Qed.

Hypothesis operand_eq_sym :
  forall a b, operand_eq a b = true -> operand_eq b a = true.

Hypothesis operand_eq_trans :
  forall a b c,
    operand_eq a b = true -> operand_eq b c = true -> operand_eq a c = true.

Lemma operand_eq_same_class :
  forall a b x : Operand,
    operand_eq a b = true -> operand_eq a x = operand_eq b x.
Proof.
  intros a b x Hab.
  destruct (operand_eq a x) eqn:Ha, (operand_eq b x) eqn:Hb; auto.
  - rewrite (operand_eq_trans b a x) in Hb; auto.
  - rewrite (operand_eq_trans a b x) in Ha; auto.
Qed.

Lemma delete_first_count :
  forall (element x : Operand) (l : list Operand),
    count_equal operand_eq x (delete_first operand_eq element l)
    = (count_equal operand_eq x l
       - (if operand_eq element x then 1 else 0))%nat.
Proof.
  intros element x. induction l as [|u l IH]; simpl.
  - destruct (operand_eq element x); reflexivity.
  - destruct (operand_eq u element) eqn:Hue.
    + rewrite count_equal_cons.
      rewrite (operand_eq_same_class u element x Hue).
      destruct (operand_eq element x); lia.
    + rewrite !count_equal_cons, IH.
      destruct (operand_eq u x) eqn:Hux, (operand_eq element x) eqn:Hex;
        try lia.
      rewrite (operand_eq_trans u x element) in Hue; auto.
      discriminate.
Qed.

Lemma fold_delete_first_count :
  forall (x : Operand) (others l : list Operand),
    count_equal operand_eq x
      (fold_left
         (fun unmatched element => delete_first operand_eq element unmatched)
         others l)
    = (count_equal operand_eq x l - count_equal operand_eq x others)%nat.
Proof.
  intros x. induction others as [|e others IH]; simpl; intros l.
  - unfold count_equal at 3. simpl. lia.
  - rewrite IH, delete_first_count, count_equal_cons. lia.
Qed.

Lemma Permutation_count_equal :
  forall (x : Operand) (p l : list Operand),
    Permutation p l ->
    count_equal operand_eq x p = count_equal operand_eq x l.
Proof.
  intros x p l H. induction H; rewrite ?count_equal_cons; lia.
Qed.

Lemma Forall2_count_equal :
  forall (x : Operand) (p others : list Operand),
    Forall2 (fun u e => operand_eq u e = true) p others ->
    count_equal operand_eq x p = count_equal operand_eq x others.
Proof.
  intros x p others H. induction H as [|u e p others Hue _ IH].
  - reflexivity.
  - rewrite !count_equal_cons, IH, (operand_eq_same_class u e x Hue).
    reflexivity.
Qed.

(** When the members pair off, the loops leave nothing. *)
Lemma paired_fold_delete_first :
  forall others l p : list Operand,
    Permutation p l ->
    Forall2 (fun u e => operand_eq u e = true) p others ->
    fold_left
      (fun unmatched element => delete_first operand_eq element unmatched)
      others l = [].
Proof.
  intros others l p Hp Hf.
  destruct (fold_left _ others l) as [|w rest] eqn:Hfold; auto.
  exfalso.
  assert (In w l) as Hl
    by (apply (fold_delete_first_incl others l); rewrite Hfold; now left).
  assert (In w p) as Hin
    by (apply Permutation_in with l; [now apply Permutation_sym | auto]).
  destruct (Forall2_partner _ p others w Hf Hin) as (e & _ & Hwe).
  assert (operand_eq w w = true) as Hww
    by (apply (operand_eq_trans w e w); auto).
  pose proof (fold_delete_first_count w others l) as Hc.
  rewrite Hfold, count_equal_cons, Hww in Hc.
  rewrite <- (Permutation_count_equal w p l Hp) in Hc.
  rewrite (Forall2_count_equal w p others Hf) in Hc. lia.
Qed.

End Matching.

(** Under a symmetric and transitive [==] the check succeeds exactly
    when the members pair off. *)
Lemma Set_check_equivalence_paired :
  forall (operand_eq : Operand -> Operand -> bool) (self node : SetConst),
    partial_equivalence operand_eq ->
    Set_check_equivalence operand_eq self node = Ok tt <->
    paired operand_eq self node.
Proof.
  intros operand_eq self node [Hsym Htrans].
  unfold Set_check_equivalence, paired. split.
  - destruct (Nat.eqb (List.length (Set_constant_value self))
                      (List.length (Set_constant_value node))) eqn:Hlen;
      simpl; [|discriminate].
    apply Nat.eqb_eq in Hlen. intros H.
    apply fold_delete_first_paired; auto.
    destruct (fold_left _ _ _); [auto | discriminate].
  - intros (p & Hp & Hf).
    assert (List.length (Set_constant_value self)
            = List.length (Set_constant_value node)) as ->
      by (rewrite <- (Permutation_length Hp); now apply Forall2_length in Hf).
    rewrite Nat.eqb_refl; simpl.
    now rewrite (paired_fold_delete_first operand_eq Hsym Htrans _ _ p Hp Hf).
Qed.

Lemma SFeqb_same :
  forall f g : float,
    SFeqb f g = true ->
    f = g \/ exists s t, f = S754_zero s /\ g = S754_zero t.
Proof.
  intros f g H. unfold SFeqb in H.
  destruct f as [s|s| |s m e], g as [t|t| |t n d]; simpl in H;
    try discriminate; eauto;
    try (destruct s; discriminate); try (destruct t; discriminate).
  - destruct s, t; try discriminate; auto.
  - destruct s, t; try discriminate;
      destruct (e ?= d) eqn:He; try discriminate;
      apply Z.compare_eq in He; subst d;
      destruct (Pos.compare_cont Eq m n) eqn:Hm; try discriminate;
      change (Pos.compare m n = Eq) in Hm;
      apply Pos.compare_eq in Hm; subst n; auto.
Qed.

Lemma value_eq_sym :
  forall a b : PyVal, value_eq a b = true -> value_eq b a = true.
Proof.
  intros a b. destruct a, b; simpl; try discriminate.
  - intros H. destruct (SFeqb_same _ _ H) as [->|(s & t & -> & ->)]; auto.
  - intros H. apply String.eqb_eq in H. subst. apply String.eqb_refl.
Qed.

Lemma value_eq_trans :
  forall a b c : PyVal,
    value_eq a b = true -> value_eq b c = true -> value_eq a c = true.
Proof.
  intros a b c. destruct a, b; simpl; try discriminate.
  - intros H. destruct c; simpl; try discriminate.
    destruct (SFeqb_same _ _ H) as [->|(s & t & -> & ->)]; auto.
  - intros H. apply String.eqb_eq in H. now subst.
Qed.

(** The structural [==] of the spec is symmetric and transitive. *)
Lemma structural_eq_partial_equivalence :
  partial_equivalence structural_eq.
Proof.
  unfold partial_equivalence, structural_eq. split.
  - intros a b H. apply andb_true_iff in H. destruct H as [Hk Hv].
    apply String.eqb_eq in Hk. rewrite Hk, String.eqb_refl; simpl.
    destruct (constant_value a), (constant_value b); try discriminate; auto.
    now apply value_eq_sym.
  - intros a b c H H'.
    apply andb_true_iff in H. destruct H as [Hk Hv].
    apply andb_true_iff in H'. destruct H' as [Hk' Hv'].
    apply String.eqb_eq in Hk, Hk'. rewrite Hk, Hk', String.eqb_refl; simpl.
    destruct (constant_value a), (constant_value b), (constant_value c);
      try discriminate; auto.
    now apply (value_eq_trans _ _ _ Hv).
Qed.




(** ** The evaluator and the text operations on examples *)

Example eval_expr_precedence :
  forall rt : PyRuntime,
    eval_expr rt "2**3**2" = Ok (NInt 512)
    /\ eval_expr rt "-2**2" = Ok (NInt (-4))
    /\ eval_expr rt "2*-3**2" = Ok (NInt (-18))
    /\ eval_expr rt "(1 + 2) * 3 - 4" = Ok (NInt 5)
    /\ eval_expr rt "7/2" = Ok (NFloat (S754_finite false 7881299347898368 (-51)))
    /\ eval_expr rt "1.5 + .25"
       = Ok (NFloat (S754_finite false 7881299347898368 (-52)))
    /\ eval_expr rt "1/0" = Raise ZeroDivisionError.
Proof.
  intros rt. repeat split.
Qed.

Example eval_expr_syntax :
  forall rt : PyRuntime,
    eval_expr rt "" = Raise UnsafeExpression
    /\ eval_expr rt "2 3" = Raise UnsafeExpression
    /\ eval_expr rt "2 * * 3" = Raise UnsafeExpression
    /\ eval_expr rt "(2" = Raise UnsafeExpression
    /\ eval_expr rt "2(3)" = Raise UnsafeExpression
    /\ eval_expr rt "+2" = Raise UnsafeExpression
    /\ eval_expr rt "x" = Raise UnsafeExpression.
Proof.
  intros rt. repeat split.
Qed.

Example str_replace_examples :
  str_replace "x" "2" "ns:x+x" = "ns:2+2"
  /\ str_replace "^" "**" "2^3^4" = "2**3**4"
  /\ str_replace "aa" "b" "aaaaa" = "bba"
  /\ str_replace "" "-" "abc" = "-a-b-c-"
  /\ str_split ":" "a:b:x" = Ok ["a"; "b"; "x"]
  /\ str_split ":" "x" = Ok ["x"].
Proof.
  repeat split.
Qed.

(** Without the first pass a bare key recorded first rewrites the tail
    of the qualified one, and the text is no expression any more. *)
Example bare_pass_alone_clobbers :
  replace_loop bare_runtime ":"
    [("x", DateMonths bare_runtime 2); ("ns:x", DateDays bare_runtime 1)]
    "x+ns:x" five_and_two false
  = Ok "2+ns:2".
Proof. reflexivity. Qed.

(** ** ArithmeticVariable *)

Lemma replace_loop_qualified :
  forall (rt : PyRuntime) (sep : string) (ctx : Context)
         (entries : list (string * Operand)) (num : string),
    replace_loop rt sep entries num ctx true
    = replace_loop rt sep (filter (qualified sep) entries) num ctx false.
Proof.
  intros rt sep ctx. induction entries as [|[k v] rest IH]; intros num.
  - reflexivity.
  - simpl. unfold qualified at 1. simpl.
    destruct (str_contains sep k); simpl; auto.
    destruct (to_python v ctx); simpl; auto.
Qed.

(** C2. [evaluate] first substitutes the keys that contain the
    separator and only then all the keys, so a bare key never rewrites
    the tail of a qualified one: with [ns:x] resolved to 5 and [x] to 2,
    [ns:x + x] evaluates to 7, in whichever order the two keys were
    recorded. *)
Theorem evaluate_substitutes_qualified_keys_first :
  forall rt : PyRuntime,
    (forall (av : ArithmeticVariable) (ctx : Context),
        ArithmeticVariable_evaluate rt av ctx
        = (s1 <- replace_loop rt (namespace_separator av)
                   (filter (qualified (namespace_separator av))
                           (required_variables av))
                   (full_expression av) ctx false ;;
           s2 <- replace_loop rt (namespace_separator av)
                   (required_variables av) s1 ctx false ;;
           eval_expr rt (str_replace "^" "**" s2)))
    /\ (forall (ns : Namespace) (q b : Operand) (ctx : Context),
          ns "x" ["ns"] = Ok q -> ns "x" [] = Ok b ->
          to_python q ctx = Ok (PyInt 5) ->
          to_python b ctx = Ok (PyInt 2) ->
          (exists av,
              ArithmeticVariable_init ns ":" qualified_then_bare = Ok av
              /\ full_expression av = "ns:x+x"
              /\ ArithmeticVariable_evaluate rt av ctx = Ok (NInt 7))
          /\ (exists av,
                 ArithmeticVariable_init ns ":" bare_then_qualified = Ok av
                 /\ full_expression av = "x+ns:x"
                 /\ ArithmeticVariable_evaluate rt av ctx = Ok (NInt 7))).
Proof.
  intros rt. split.
  - intros av ctx. unfold ArithmeticVariable_evaluate,
      ArithmeticVariable_replace.
    now rewrite replace_loop_qualified.
  - intros ns q b ctx Hq Hb Hq5 Hb2. split.
    + unfold ArithmeticVariable_init, define_variables; simpl.
      unfold variable_of_token; simpl. rewrite Hq, Hb; simpl.
      eexists. split; [reflexivity|]. split; [reflexivity|].
      unfold ArithmeticVariable_evaluate, ArithmeticVariable_replace; simpl.
      rewrite Hq5; simpl. rewrite Hb2; simpl.
      reflexivity.
    + unfold ArithmeticVariable_init, define_variables; simpl.
      unfold variable_of_token; simpl. rewrite Hq, Hb; simpl.
      eexists. split; [reflexivity|]. split; [reflexivity|].
      unfold ArithmeticVariable_evaluate, ArithmeticVariable_replace; simpl.
      rewrite Hq5; simpl. rewrite Hb2; simpl.
      reflexivity.
Qed.

Lemma evaluate_substitutes_qualified_keys_first_witness :
  (exists av,
      ArithmeticVariable_init date_namespace ":" qualified_then_bare = Ok av
      /\ full_expression av = "ns:x+x"
      /\ ArithmeticVariable_evaluate bare_runtime av five_and_two
         = Ok (NInt 7))
  /\ (exists av,
         ArithmeticVariable_init date_namespace ":" bare_then_qualified
         = Ok av
         /\ full_expression av = "x+ns:x"
         /\ ArithmeticVariable_evaluate bare_runtime av five_and_two
            = Ok (NInt 7)).
Proof.
  apply (proj2 (evaluate_substitutes_qualified_keys_first bare_runtime)
           date_namespace (DateDays bare_runtime 1)
           (DateMonths bare_runtime 2) five_and_two);
    reflexivity.
Defined.

(** ** SafeEval *)

Lemma emit_none :
  forall (p : pending) (here : list lexeme), emit p here None = None.
Proof. intros p here. unfold emit. now destruct (flush p). Qed.

Lemma lex_from_foreign :
  forall (s : string) (p : pending),
    foreign_text s = true -> lex_from p s = None.
Proof.
  induction s as [|c s IH]; intros p H.
  - discriminate.
  - unfold foreign_text in H. simpl in H. apply orb_true_iff in H.
    simpl. destruct H as [H|H].
    + apply negb_true_iff in H. unfold in_grammar in H.
      destruct (digit_of c); [discriminate|].
      destruct (punct_of c); [discriminate|].
      apply orb_false_iff in H. destruct H as [H Hs].
      apply orb_false_iff in H. destruct H as [Hdot Hstar].
      now rewrite Hdot, Hstar, Hs.
    + assert (forall q, lex_from q s = None) as Hrest
        by (intros q; now apply IH).
      destruct (digit_of c).
      * destruct p; rewrite ?Hrest, ?emit_none; reflexivity.
      * destruct (Ascii.eqb c "."%char).
        { destruct p; rewrite ?Hrest, ?emit_none; reflexivity. }
        destruct (Ascii.eqb c "*"%char).
        { destruct p; rewrite ?Hrest, ?emit_none; reflexivity. }
        destruct (is_space c); [now rewrite Hrest, emit_none|].
        destruct (punct_of c); [now rewrite Hrest, emit_none | reflexivity].
Qed.

Lemma eval_expr_foreign :
  forall (rt : PyRuntime) (s : string),
    foreign_text s = true -> eval_expr rt s = Raise UnsafeExpression.
Proof.
  intros rt s H. unfold eval_expr, lex. now rewrite lex_from_foreign.
Qed.

(** C3. A string with a character outside the restricted grammar is
    never evaluated: [eval_expr], and [evaluate] when the substituted
    string is such a string, raise [UnsafeExpression]; so does
    ["1; import os"]. A result is always the value of an expression
    tree of literals, binary operators and unary minus. *)
Theorem evaluate_rejects_foreign_text :
  forall rt : PyRuntime,
    (forall s : string,
        foreign_text s = true -> eval_expr rt s = Raise UnsafeExpression)
    /\ (forall (av : ArithmeticVariable) (ctx : Context) (s1 s2 : string),
          ArithmeticVariable_replace rt av (full_expression av) ctx true
          = Ok s1 ->
          ArithmeticVariable_replace rt av s1 ctx false = Ok s2 ->
          foreign_text (str_replace "^" "**" s2) = true ->
          ArithmeticVariable_evaluate rt av ctx = Raise UnsafeExpression)
    /\ eval_expr rt "1; import os" = Raise UnsafeExpression
    /\ (forall (s : string) (n : num),
          eval_expr rt s = Ok n ->
          exists ls e,
            lex s = Some ls /\ parse ls = Some e /\ eval_ast rt e = Ok n).
Proof.
  intros rt. split; [|split; [|split]].
  - apply eval_expr_foreign.
  - intros av ctx s1 s2 H1 H2 Hf. unfold ArithmeticVariable_evaluate.
    rewrite H1; simpl. rewrite H2; simpl. now apply eval_expr_foreign.
  - apply eval_expr_foreign. reflexivity.
  - intros s n H. unfold eval_expr in H.
    destruct (lex s) as [ls|] eqn:Hlex; [|discriminate].
    destruct (parse ls) as [e|] eqn:Hparse; [|discriminate].
    now exists ls, e.
Qed.

Lemma evaluate_rejects_foreign_text_witness :
  exists av,
    ArithmeticVariable_init date_namespace ":" one_semicolon_two = Ok av
    /\ ArithmeticVariable_evaluate bare_runtime av five_and_two
       = Raise UnsafeExpression.
Proof.
  eexists. split; [reflexivity|].
  apply (proj1 (proj2 (evaluate_rejects_foreign_text bare_runtime))
           _ five_and_two "1;2" "1;2");
    reflexivity.
Defined.

(** ** ArithmeticVariable without identifiers *)

Lemma get_variable_names_none :
  forall (ns : Namespace) (sep : string) (p : parsed),
    Forall (fun t => looks_like_variable sep t = false) (flatten_item p) ->
    get_variable_names ns sep p = Ok [].
Proof.
  intros ns sep. fix IH 1. intros [t|l] H.
  - simpl in *. unfold variable_of_token.
    inversion H as [|? ? Ht]; subst. now rewrite Ht.
  - simpl in *. induction l as [|x l IHl]; auto.
    apply Forall_app in H. destruct H as [Hx Hl].
    rewrite (IH x Hx); simpl. now rewrite (IHl Hl).
Qed.

Lemma collect_variable_names_none :
  forall (ns : Namespace) (sep : string) (number : list parsed),
    Forall (fun t => looks_like_variable sep t = false) (flatten number) ->
    collect_variable_names ns sep number = Ok [].
Proof.
  intros ns sep. induction number as [|x rest IH]; simpl; intros H; auto.
  apply Forall_app in H. destruct H as [Hx Hrest].
  rewrite (get_variable_names_none ns sep x Hx); simpl.
  now rewrite (IH Hrest).
Qed.

Lemma replace_from_absent :
  forall old new s : string,
    str_contains old s = false -> replace_from old new 0 s = s.
Proof.
  intros old new. induction s as [|c s IH]; intros H; auto.
  cbn [str_contains] in H. apply orb_false_iff in H. destruct H as [Hp Hs].
  cbn [replace_from]. rewrite Hp. f_equal. now apply IH.
Qed.

(** C8. When no token looks like an identifier there is no variable
    to substitute, both passes return their input, and [evaluate] is
    the plain evaluation of the concatenated tokens under any context;
    without a [^] in them it is [eval_expr] on that very string. *)
Theorem evaluate_without_identifiers :
  forall (rt : PyRuntime) (ns : Namespace) (sep : string)
         (number : list parsed) (ctx : Context),
    Forall (fun t => looks_like_variable sep t = false) (flatten number) ->
    exists av,
      ArithmeticVariable_init ns sep number = Ok av
      /\ full_expression av = String.concat "" (flatten number)
      /\ required_variables av = []
      /\ (forall (s : string) (namespace : bool),
             ArithmeticVariable_replace rt av s ctx namespace = Ok s)
      /\ ArithmeticVariable_evaluate rt av ctx
         = plain_numeric_eval rt (String.concat "" (flatten number))
      /\ (str_contains "^" (String.concat "" (flatten number)) = false ->
          ArithmeticVariable_evaluate rt av ctx
          = eval_expr rt (String.concat "" (flatten number))).
Proof.
  intros rt ns sep number ctx H.
  unfold ArithmeticVariable_init, define_variables.
  rewrite (collect_variable_names_none ns sep number H); simpl.
  eexists. split; [reflexivity|]. repeat split.
  intros Hc. unfold ArithmeticVariable_evaluate; simpl.
  unfold str_replace. now rewrite replace_from_absent.
Qed.

Lemma evaluate_without_identifiers_witness :
  exists av,
    ArithmeticVariable_init date_namespace ":" nested_sum = Ok av
    /\ ArithmeticVariable_evaluate bare_runtime av five_and_two
       = Ok (NInt 8)
    /\ plain_numeric_eval bare_runtime "2^(1+2)" = Ok (NInt 8).
Proof.
  destruct (evaluate_without_identifiers bare_runtime date_namespace ":"
              nested_sum five_and_two)
    as (av & Hinit & _ & _ & _ & Heval & _).
  - repeat constructor.
  - exists av. split; [exact Hinit|]. split; [|reflexivity].
    rewrite Heval. reflexivity.
Defined.

(** * Further properties of the code *)

(** ** Number: the order of floats *)

Lemma SFcompare_nan :
  forall a b : float,
    SFcompare a b = None <-> (is_nan a || is_nan b)%bool = true.
Proof.
  intros a b. destruct a as [sa|sa| |sa ma ea], b as [sb|sb| |sb mb eb];
    simpl; split; intros H; try reflexivity; try discriminate.
Qed.

Lemma SFcompare_refl :
  forall a : float, is_nan a = false -> SFcompare a a = Some Eq.
Proof.
  intros [s|s| |s m e] H; simpl; try discriminate; try reflexivity.
  - now destruct s.
  - rewrite Z.compare_refl, Pos.compare_cont_refl. now destruct s.
Qed.

Lemma SFcompare_antisym :
  forall a b : float,
    SFcompare b a
    = match SFcompare a b with
      | Some c => Some (CompOpp c)
      | None => None
      end.
Proof.
  intros a b. destruct a as [sa|sa| |sa ma ea], b as [sb|sb| |sb mb eb];
    simpl; try reflexivity;
    try (destruct sa; reflexivity); try (destruct sb; reflexivity);
    try (destruct sa, sb; reflexivity).
  replace (Pos.compare_cont Eq mb ma)
    with (CompOpp (Pos.compare_cont Eq ma mb))
    by (now rewrite Pos.compare_cont_antisym).
  rewrite (Z.compare_antisym ea eb).
  destruct sa, sb; try reflexivity;
    destruct (ea ?= eb); simpl; try reflexivity;
    destruct (Pos.compare_cont Eq ma mb); reflexivity.
Qed.

Lemma Number__to_number_ok :
  forall (rt : PyRuntime) (v : PyVal) (f : float),
    py_float rt v = Ok f -> Number__to_number rt v = Ok f.
Proof. intros rt v f H. unfold Number__to_number. now rewrite H. Qed.

(** X1. A [Number] built from a value equals that value, unless the
    value is a NaN, which equals nothing. *)
Theorem Number_init_then_equals :
  forall (rt : PyRuntime) (id : nat) (v : PyVal) (n : Number)
         (ctx : Context),
    Number_init rt id v = Ok n ->
    Number_equals rt n v ctx
    = Ok (negb (is_nan (Number_constant_value n))).
Proof.
  intros rt id v n ctx H. unfold Number_init in H.
  destruct (py_float rt v) as [f|e] eqn:Hf; simpl in H; [|discriminate].
  inversion H; subst; simpl. unfold Number_equals.
  rewrite (Number__to_number_ok rt v f Hf); simpl. unfold SFeqb.
  destruct (is_nan f) eqn:Hn.
  - destruct f; try discriminate. reflexivity.
  - now rewrite SFcompare_refl.
Qed.

Lemma Number_init_then_equals_witness :
  Number_init bare_runtime 1 (PyInt 3) = Ok number_three
  /\ Number_equals bare_runtime number_three (PyInt 3) PyNone = Ok true.
Proof.
  split; [reflexivity|].
  exact (Number_init_then_equals bare_runtime 1 (PyInt 3) number_three
           PyNone eq_refl).
Defined.

(** X2. On a value that converts to a float exactly one of [equals],
    [greater_than] and [less_than] answers true, and none of them when
    the constant or the value is a NaN. *)
Theorem Number_comparisons_exclusive :
  forall (rt : PyRuntime) (n : Number) (v : PyVal) (f : float)
         (ctx : Context),
    py_float rt v = Ok f ->
    exists e g l : bool,
      Number_equals rt n v ctx = Ok e
      /\ Number_greater_than rt n v ctx = Ok g
      /\ Number_less_than rt n v ctx = Ok l
      /\ (if (is_nan (Number_constant_value n) || is_nan f)%bool
          then e = false /\ g = false /\ l = false
          else (e = true /\ g = false /\ l = false)
               \/ (e = false /\ g = true /\ l = false)
               \/ (e = false /\ g = false /\ l = true)).
Proof.
  intros rt n v f ctx Hf.
  unfold Number_equals, Number_greater_than, Number_less_than.
  rewrite (Number__to_number_ok rt v f Hf); simpl.
  do 3 eexists. repeat (split; [reflexivity|]).
  unfold SFeqb, SFltb.
  rewrite (SFcompare_antisym (Number_constant_value n) f).
  destruct (is_nan (Number_constant_value n) || is_nan f)%bool eqn:Hn.
  - apply SFcompare_nan in Hn. rewrite Hn. auto.
  - destruct (SFcompare (Number_constant_value n) f) as [[| |]|] eqn:Hc;
      simpl; auto.
    apply SFcompare_nan in Hc. congruence.
Qed.

Lemma Number_comparisons_exclusive_witness :
  exists e g l : bool,
    Number_equals bare_runtime number_three (PyInt 2) PyNone = Ok e
    /\ Number_greater_than bare_runtime number_three (PyInt 2) PyNone = Ok g
    /\ Number_less_than bare_runtime number_three (PyInt 2) PyNone = Ok l
    /\ ((e = true /\ g = false /\ l = false)
        \/ (e = false /\ g = true /\ l = false)
        \/ (e = false /\ g = false /\ l = true)).
Proof.
  exact (Number_comparisons_exclusive bare_runtime number_three (PyInt 2)
           (S754_finite false 4503599627370496 (-51)) PyNone eq_refl).
Defined.

(** On text that is no number the three comparisons of [Number] raise
    [InvalidOperationError] with that text. *)
Theorem Number_rejects_text :
  forall (rt : PyRuntime) (n : Number) (s : string) (ctx : Context),
    float_of_text rt s = None ->
    Number_equals rt n (PyStr s) ctx
    = Raise (InvalidOperationError (NotANumber (PyStr s)))
    /\ Number_greater_than rt n (PyStr s) ctx
       = Raise (InvalidOperationError (NotANumber (PyStr s)))
    /\ Number_less_than rt n (PyStr s) ctx
       = Raise (InvalidOperationError (NotANumber (PyStr s))).
Proof.
  intros rt n s ctx H.
  unfold Number_equals, Number_greater_than, Number_less_than.
  rewrite (Number__to_number_text rt s H). repeat split.
Qed.

Lemma Number_rejects_text_witness :
  Number_equals bare_runtime number_three (PyStr "abc") PyNone
  = Raise (InvalidOperationError (NotANumber (PyStr "abc")))
  /\ Number_greater_than bare_runtime number_three (PyStr "abc") PyNone
     = Raise (InvalidOperationError (NotANumber (PyStr "abc")))
  /\ Number_less_than bare_runtime number_three (PyStr "abc") PyNone
     = Raise (InvalidOperationError (NotANumber (PyStr "abc"))).
Proof.
  exact (Number_rejects_text bare_runtime number_three "abc" PyNone eq_refl).
Defined.

(** ** Arithmetic: the comparisons and the context *)

(** X3. Whatever the expression, the value and the context,
    [Arithmetic.equals] never answers true and [greater_than] and
    [less_than] never answer at all. *)
Theorem Arithmetic_comparisons_never_hold :
  forall (rt : PyRuntime) (a : Arithmetic) (v : PyVal) (ctx : Context),
    Arithmetic_equals rt a v ctx <> Ok true
    /\ (forall b : bool, Arithmetic_greater_than rt a v ctx <> Ok b)
    /\ (forall b : bool, Arithmetic_less_than rt a v ctx <> Ok b).
Proof.
  intros rt a v ctx. split; [apply Arithmetic_equals_never_true|].
  unfold Arithmetic_greater_than, Arithmetic_less_than.
  split; intros b; destruct (Arithmetic__to_number rt v); simpl;
    discriminate.
Qed.

Lemma replace_loop_same_values :
  forall (rt : PyRuntime) (sep : string) (ctx1 ctx2 : Context)
         (namespace : bool) (entries : list (string * Operand))
         (num : string),
    (forall k v, In (k, v) entries -> to_python v ctx1 = to_python v ctx2) ->
    replace_loop rt sep entries num ctx1 namespace
    = replace_loop rt sep entries num ctx2 namespace.
Proof.
  intros rt sep ctx1 ctx2 namespace.
  induction entries as [|[k v] rest IH]; intros num H; simpl; auto.
  assert (forall k' v', In (k', v') rest ->
            to_python v' ctx1 = to_python v' ctx2) as Hrest
    by (intros; apply H with k'; now right).
  destruct (namespace && negb (str_contains sep k))%bool; auto.
  rewrite (H k v) by now left.
  destruct (to_python v ctx2); simpl; auto.
Qed.

(** X4. [evaluate] reads the context through the recorded variables
    only: two contexts in which every recorded variable has the same
    value, or fails alike, give the same result. *)
Theorem evaluate_reads_context_through_variables :
  forall (rt : PyRuntime) (av : ArithmeticVariable) (ctx1 ctx2 : Context),
    (forall k v, In (k, v) (required_variables av) ->
                 to_python v ctx1 = to_python v ctx2) ->
    ArithmeticVariable_evaluate rt av ctx1
    = ArithmeticVariable_evaluate rt av ctx2.
Proof.
  intros rt av ctx1 ctx2 H.
  unfold ArithmeticVariable_evaluate, ArithmeticVariable_replace.
  rewrite (replace_loop_same_values rt _ ctx1 ctx2 true _ _ H).
  destruct (replace_loop rt (namespace_separator av) (required_variables av)
              (full_expression av) ctx2 true) as [s1|e]; simpl; auto.
  now rewrite (replace_loop_same_values rt _ ctx1 ctx2 false _ _ H).
Qed.

Lemma evaluate_reads_context_through_variables_witness :
  ArithmeticVariable_evaluate bare_runtime days_plus_months five_and_two
  = ArithmeticVariable_evaluate bare_runtime days_plus_months
      (PyDict [("date", PyDict [("days", PyInt 5); ("months", PyInt 2)]);
               ("stock", PyNone)]).
Proof.
  apply evaluate_reads_context_through_variables.
  intros k v [H|[H|[]]]; inversion H; reflexivity.
Defined.

(** ** Text: split and join *)

Lemma append_empty_r : forall s : string, s ++ "" = s.
Proof. induction s as [|c s IH]; simpl; [reflexivity | now rewrite IH]. Qed.

Lemma append_assoc' :
  forall a b c : string, (a ++ b) ++ c = a ++ (b ++ c).
Proof. induction a as [|x a IH]; intros; simpl; [reflexivity | now rewrite IH]. Qed.

Lemma prefix_drop :
  forall p s : string,
    prefix p s = true ->
    s = p ++ drop (String.length p) s
    /\ (String.length p <= String.length s)%nat.
Proof.
  induction p as [|a p IH]; intros s H.
  - simpl. split; [reflexivity | lia].
  - destruct s as [|b s]; simpl in H; [discriminate|].
    destruct (ascii_dec a b) as [Hab|]; [|discriminate].
    destruct (IH s H) as [Heq Hlen]. subst b. simpl.
    split; [f_equal; exact Heq | lia].
Qed.

Lemma split_from_not_nil :
  forall (sep s : string) (skip : nat) (cur : string),
    split_from sep skip cur s <> [].
Proof.
  intros sep. induction s as [|c s IH]; intros skip cur; cbn [split_from].
  - discriminate.
  - destruct skip; [|apply IH].
    destruct (prefix sep (String c s)); [discriminate | apply IH].
Qed.

Lemma concat_cons :
  forall (sep x : string) (xs : list string),
    xs <> [] ->
    String.concat sep (x :: xs) = x ++ sep ++ String.concat sep xs.
Proof. intros sep x [|y xs] H; [contradiction | reflexivity]. Qed.

Lemma split_from_join :
  forall (a : ascii) (sep' s : string) (skip : nat) (cur : string),
    (skip <= String.length s)%nat ->
    String.concat (String a sep') (split_from (String a sep') skip cur s)
    = cur ++ drop skip s.
Proof.
  intros a sep'. induction s as [|c s IH]; intros skip cur Hskip.
  - simpl. destruct skip; simpl; now rewrite append_empty_r.
  - destruct skip as [|k].
    + cbn [split_from drop].
      destruct (prefix (String a sep') (String c s)) eqn:Hp.
      * rewrite concat_cons by apply split_from_not_nil.
        simpl in Hp. destruct (ascii_dec a c) as [Hac|]; [|discriminate].
        destruct (prefix_drop sep' s Hp) as [Heq Hlen].
        cbn [String.length]. rewrite Nat.sub_succ, Nat.sub_0_r.
        rewrite IH by exact Hlen. subst c. simpl.
        now rewrite <- Heq.
      * rewrite IH by lia. simpl. rewrite append_assoc'. reflexivity.
    + simpl. apply IH. simpl in Hskip. lia.
Qed.

Lemma str_split_join :
  forall (sep s : string) (parts : list string),
    str_split sep s = Ok parts ->
    String.concat sep parts = s /\ parts <> [].
Proof.
  intros [|a sep'] s parts H; simpl in H; [discriminate|].
  inversion H; subst. split; [|apply split_from_not_nil].
  now rewrite split_from_join by lia.
Qed.

(** ** The variable table *)

Lemma bind_Ok_inv :
  forall (A B : Type) (c : result A) (k : A -> result B) (b : B),
    bind c k = Ok b -> exists a, c = Ok a /\ k a = Ok b.
Proof. intros A B [a|e] k b H; simpl in H; [eauto | discriminate]. Qed.

Lemma token_variables_app :
  forall (ns : Namespace) (sep : string) (a b : list string),
    token_variables ns sep (a ++ b)
    = (x <- token_variables ns sep a ;;
       y <- token_variables ns sep b ;;
       Ok (x ++ y)%list).
Proof.
  intros ns sep. induction a as [|t a IH]; intros b; simpl.
  - now destruct (token_variables ns sep b).
  - destruct (variable_of_token ns sep t) as [x|e]; simpl; auto.
    rewrite IH.
    destruct (token_variables ns sep a) as [xs|e]; simpl; auto.
    destruct (token_variables ns sep b) as [ys|e]; simpl; auto.
    now rewrite app_assoc.
Qed.

Lemma get_variable_names_flat :
  forall (ns : Namespace) (sep : string) (p : parsed),
    get_variable_names ns sep p = token_variables ns sep (flatten_item p).
Proof.
  intros ns sep. fix IH 1. intros [t|l].
  - simpl. destruct (variable_of_token ns sep t); simpl; auto.
    now rewrite app_nil_r.
  - simpl. induction l as [|x l IHl]; auto.
    rewrite token_variables_app, <- (IH x), <- IHl. reflexivity.
Qed.

Lemma collect_variable_names_flat :
  forall (ns : Namespace) (sep : string) (number : list parsed),
    collect_variable_names ns sep number
    = token_variables ns sep (flatten number).
Proof.
  intros ns sep. induction number as [|x rest IH]; simpl; auto.
  now rewrite token_variables_app, get_variable_names_flat, IH.
Qed.

Lemma flatten_tokens :
  forall tokens : list string, flatten (map Token tokens) = tokens.
Proof.
  induction tokens as [|t rest IH]; simpl; [reflexivity | now rewrite IH].
Qed.

(** X5. The grouping of the tokens is immaterial: built from the nested
    results or from their flattened tokens, an expression has the same
    text and the same variables, and fails alike; [__str__] returns the
    text [evaluate] starts from. *)
Theorem ArithmeticVariable_init_ignores_grouping :
  forall (ns : Namespace) (sep : string) (number : list parsed),
    match ArithmeticVariable_init ns sep number,
          ArithmeticVariable_init ns sep (map Token (flatten number)) with
    | Ok nested, Ok flat =>
        full_expression nested = full_expression flat
        /\ required_variables nested = required_variables flat
        /\ ArithmeticVariable_str nested = full_expression nested
    | Raise e, Raise e' => e = e'
    | _, _ => False
    end.
Proof.
  intros ns sep number. unfold ArithmeticVariable_init, define_variables.
  rewrite !collect_variable_names_flat, !flatten_tokens.
  destruct (token_variables ns sep (flatten number)); simpl; auto.
Qed.

Lemma variable_of_token_entries :
  forall (ns : Namespace) (sep t : string) (x : list (string * Operand)),
    variable_of_token ns sep t = Ok x ->
    if looks_like_variable sep t
    then exists v, x = [(t, v)]
    else x = [].
Proof.
  intros ns sep t x H. unfold variable_of_token in H.
  destruct (looks_like_variable sep t).
  - destruct (str_split sep t) as [var|e]; simpl in H; [|discriminate].
    destruct (ns (last var "") (removelast var)) as [v|e]; simpl in H;
      [|discriminate].
    inversion H. eauto.
  - now inversion H.
Qed.

Lemma token_variables_keys :
  forall (ns : Namespace) (sep : string) (tokens : list string)
         (temp : list (string * Operand)),
    token_variables ns sep tokens = Ok temp ->
    map fst temp = filter (looks_like_variable sep) tokens
    /\ (forall k v, In (k, v) temp ->
                    variable_of_token ns sep k = Ok [(k, v)]).
Proof.
  intros ns sep. induction tokens as [|t rest IH]; intros temp H.
  - inversion H. split; [reflexivity | intros k v []].
  - simpl in H. apply bind_Ok_inv in H. destruct H as (x & Hx & H).
    apply bind_Ok_inv in H. destruct H as (xs & Hxs & H).
    inversion H; subst. destruct (IH xs Hxs) as [Hkeys Hvals].
    pose proof (variable_of_token_entries ns sep t x Hx) as Hent.
    simpl. destruct (looks_like_variable sep t).
    + destruct Hent as (v & ->). simpl. split; [now rewrite Hkeys|].
      intros k v' [Heq|Hin]; [inversion Heq; subst; exact Hx | auto].
    + subst x. simpl. split; auto.
Qed.

(** [dict_set] keeps the keys distinct and adds the key it writes. *)
Lemma dict_set_keys :
  forall (k : string) (v : Operand) (d : list (string * Operand)),
    NoDup (map fst d) ->
    NoDup (map fst (dict_set k v d))
    /\ (forall k', In k' (map fst (dict_set k v d))
                   <-> k' = k \/ In k' (map fst d)).
Proof.
  intros k v. induction d as [|[k0 v0] d IH]; intros Hnd.
  - simpl. split; [repeat constructor; auto | intros k'; intuition].
  - inversion Hnd as [|? ? Hnotin Hrest]; subst. simpl.
    destruct (String.eqb k0 k) eqn:Hk.
    + apply String.eqb_eq in Hk. subst k0. simpl.
      split; [exact Hnd | intros k'; intuition].
    + apply String.eqb_neq in Hk. destruct (IH Hrest) as [Hnd' Hin'].
      simpl. split.
      * constructor; auto. intros Hin. apply Hin' in Hin.
        destruct Hin as [->|Hin]; [now apply Hk | now apply Hnotin].
      * intros k'. rewrite Hin'. intuition.
Qed.

Lemma dict_set_entries :
  forall (k : string) (v : Operand) (d : list (string * Operand))
         (k' : string) (v' : Operand),
    In (k', v') (dict_set k v d) -> (k', v') = (k, v) \/ In (k', v') d.
Proof.
  intros k v. induction d as [|[k0 v0] d IH]; intros k' v' H; simpl in *.
  - destruct H as [H|[]]; auto.
  - destruct (String.eqb k0 k); simpl in H.
    + destruct H as [H|H]; auto.
    + destruct H as [H|H]; auto. apply IH in H. intuition.
Qed.

Lemma fold_dict_set :
  forall (temp d : list (string * Operand)),
    NoDup (map fst d) ->
    let final := fold_left (fun d kv => dict_set (fst kv) (snd kv) d) temp d in
    NoDup (map fst final)
    /\ (forall k, In k (map fst final)
                  <-> In k (map fst temp) \/ In k (map fst d))
    /\ (forall k v, In (k, v) final -> In (k, v) temp \/ In (k, v) d).
Proof.
  induction temp as [|[k0 v0] temp IH]; intros d Hnd; simpl.
  - split; [exact Hnd|]. split; [intros k; tauto | auto].
  - destruct (dict_set_keys k0 v0 d Hnd) as [Hnd' Hkeys].
    destruct (IH (dict_set k0 v0 d) Hnd') as (Hn & Hk & He).
    split; [exact Hn|]. split.
    + intros k. rewrite Hk, Hkeys. intuition.
    + intros k v Hin. apply He in Hin. destruct Hin as [Hin|Hin]; auto.
      apply dict_set_entries in Hin.
      destruct Hin as [Heq|Hin]; [inversion Heq; subst; auto | auto].
Qed.

(** X6. After construction the keys of the variable table are
    distinct and are exactly the tokens that look like identifiers; each
    is mapped to the variable the namespace returns for its last piece
    under the pieces before it, and the pieces joined by the separator
    give the token back. *)
Theorem required_variables_are_the_identifiers :
  forall (ns : Namespace) (sep : string) (number : list parsed)
         (av : ArithmeticVariable),
    ArithmeticVariable_init ns sep number = Ok av ->
    NoDup (map fst (required_variables av))
    /\ (forall k, In k (map fst (required_variables av))
                  <-> In k (flatten number)
                      /\ looks_like_variable sep k = true)
    /\ (forall k v, In (k, v) (required_variables av) ->
          exists var,
            str_split sep k = Ok var
            /\ String.concat sep var = k
            /\ ns (last var "") (removelast var) = Ok v).
Proof.
  intros ns sep number av H.
  unfold ArithmeticVariable_init, define_variables in H.
  rewrite collect_variable_names_flat in H.
  destruct (token_variables ns sep (flatten number)) as [temp|e] eqn:Ht;
    simpl in H; [|discriminate].
  inversion H; subst; simpl. clear H.
  destruct (token_variables_keys ns sep _ temp Ht) as [Hkeys Hvals].
  destruct (fold_dict_set temp [] (NoDup_nil _)) as (Hn & Hk & He).
  split; [exact Hn|]. split.
  - intros k. rewrite Hk, Hkeys, filter_In. simpl. tauto.
  - intros k v Hin. apply He in Hin. destruct Hin as [Hin|[]].
    apply Hvals in Hin. unfold variable_of_token in Hin.
    destruct (looks_like_variable sep k); [|discriminate].
    destruct (str_split sep k) as [var|e] eqn:Hs; simpl in Hin;
      [|discriminate].
    destruct (ns (last var "") (removelast var)) as [v'|e] eqn:Hns;
      simpl in Hin; [|discriminate].
    inversion Hin; subst. exists var.
    split; [reflexivity|]. split; [|exact Hns].
    now apply str_split_join in Hs.
Qed.

Lemma required_variables_are_the_identifiers_witness :
  NoDup (map fst (required_variables days_plus_months))
  /\ (forall k, In k (map fst (required_variables days_plus_months))
                <-> In k (flatten qualified_then_bare)
                    /\ looks_like_variable ":" k = true)
  /\ (forall k v, In (k, v) (required_variables days_plus_months) ->
        exists var,
          str_split ":" k = Ok var
          /\ String.concat ":" var = k
          /\ date_namespace (last var "") (removelast var) = Ok v).
Proof.
  exact (required_variables_are_the_identifiers date_namespace ":"
           qualified_then_bare days_plus_months eq_refl).
Defined.

Lemma token_variables_raise :
  forall (ns : Namespace) (sep : string) (e : exn) (tokens : list string),
    token_variables ns sep tokens = Raise e <->
    exists before t after,
      tokens = (before ++ t :: after)%list
      /\ Forall (fun t' => resolves ns sep t' = true) before
      /\ variable_of_token ns sep t = Raise e.
Proof.
  intros ns sep e. induction tokens as [|t rest IH]; simpl.
  - split; [discriminate|].
    intros (before & t & after & Heq & _). now destruct before.
  - split.
    + intros H. destruct (variable_of_token ns sep t) as [x|e'] eqn:Hx;
        simpl in H.
      * destruct (token_variables ns sep rest) as [xs|e'']; simpl in H;
          [discriminate|].
        inversion H; subst.
        destruct (proj1 IH eq_refl) as (before & t' & after & -> & Hb & Ht).
        exists (t :: before), t', after. repeat split; auto.
        constructor; auto. unfold resolves. now rewrite Hx.
      * inversion H; subst. exists [], t, rest. repeat split; auto.
    + intros (before & t' & after & Heq & Hb & Ht).
      destruct before as [|b before]; simpl in Heq; inversion Heq; subst.
      * now rewrite Ht.
      * inversion Hb as [|? ? Hres Hrest]; subst. unfold resolves in Hres.
        destruct (variable_of_token ns sep b); [|discriminate]. simpl.
        assert (token_variables ns sep (before ++ t' :: after) = Raise e)
          as -> by (apply IH; eauto 6).
        reflexivity.
Qed.

(** X7. Construction fails exactly when some identifier does not
    resolve, and with the error of the first such token. *)
Theorem ArithmeticVariable_init_fails_on_first_unresolved :
  forall (ns : Namespace) (sep : string) (number : list parsed) (e : exn),
    ArithmeticVariable_init ns sep number = Raise e <->
    exists before t after,
      flatten number = (before ++ t :: after)%list
      /\ Forall (fun t' => resolves ns sep t' = true) before
      /\ variable_of_token ns sep t = Raise e.
Proof.
  intros ns sep number e.
  rewrite <- token_variables_raise.
  unfold ArithmeticVariable_init, define_variables.
  rewrite collect_variable_names_flat.
  destruct (token_variables ns sep (flatten number)) as [temp|e0];
    simpl; [split; discriminate | split; intros H; inversion H; reflexivity].
Qed.

Lemma token_variables_empty_separator :
  forall (ns : Namespace) (tokens : list string),
    existsb (looks_like_variable "") tokens = true ->
    token_variables ns "" tokens = Raise ValueError.
Proof.
  intros ns. induction tokens as [|t rest IH]; intros H; simpl in *.
  - discriminate.
  - unfold variable_of_token.
    destruct (looks_like_variable "" t); simpl; [reflexivity|].
    now rewrite (IH H).
Qed.

(** X8. With an empty separator an expression that holds an identifier
    cannot be built: splitting on the empty string is a [ValueError]. *)
Theorem empty_separator_rejects_identifiers :
  forall (ns : Namespace) (number : list parsed),
    existsb (looks_like_variable "") (flatten number) = true ->
    ArithmeticVariable_init ns "" number = Raise ValueError.
Proof.
  intros ns number H. unfold ArithmeticVariable_init, define_variables.
  rewrite collect_variable_names_flat.
  now rewrite (token_variables_empty_separator ns _ H).
Qed.

Lemma empty_separator_rejects_identifiers_witness :
  ArithmeticVariable_init date_namespace "" qualified_then_bare
  = Raise ValueError.
Proof.
  apply empty_separator_rejects_identifiers. reflexivity.
Defined.

(** ** replace and failing variables *)

Lemma replace_loop_raise :
  forall (rt : PyRuntime) (sep : string) (ctx : Context) (namespace : bool)
         (e : exn) (entries : list (string * Operand)) (num : string),
    replace_loop rt sep entries num ctx namespace = Raise e ->
    exists k v, In (k, v) entries /\ to_python v ctx = Raise e.
Proof.
  intros rt sep ctx namespace e.
  induction entries as [|[k v] rest IH]; intros num H; simpl in H.
  - discriminate.
  - destruct (namespace && negb (str_contains sep k))%bool.
    + destruct (IH _ H) as (k' & v' & Hin & Hr). exists k', v'. split; auto.
      now right.
    + destruct (to_python v ctx) as [val|e'] eqn:Hv; simpl in H.
      * destruct (IH _ H) as (k' & v' & Hin & Hr). exists k', v'.
        split; auto. now right.
      * inversion H; subst. exists k, v. split; auto. now left.
Qed.

Lemma replace_loop_all_raise :
  forall (rt : PyRuntime) (sep : string) (ctx : Context)
         (entries : list (string * Operand)) (num : string),
    (exists k v e, In (k, v) entries /\ to_python v ctx = Raise e) ->
    exists e, replace_loop rt sep entries num ctx false = Raise e.
Proof.
  intros rt sep ctx. induction entries as [|[k v] rest IH]; intros num H.
  - destruct H as (k & v & e & [] & _).
  - simpl. destruct (to_python v ctx) as [val|e'] eqn:Hv; simpl; eauto.
    apply IH. destruct H as (k' & v' & e & [Heq|Hin] & Hr); eauto.
    inversion Heq; subst. congruence.
Qed.

(** X9. When a recorded variable fails under the context, [evaluate]
    fails too, with the error of a recorded variable: the second pass
    asks every variable, also one whose key is gone from the text. *)
Theorem evaluate_fails_with_a_failing_variable :
  forall (rt : PyRuntime) (av : ArithmeticVariable) (ctx : Context),
    (exists k v e, In (k, v) (required_variables av)
                   /\ to_python v ctx = Raise e) ->
    exists k v e,
      In (k, v) (required_variables av)
      /\ to_python v ctx = Raise e
      /\ ArithmeticVariable_evaluate rt av ctx = Raise e.
Proof.
  intros rt av ctx H.
  unfold ArithmeticVariable_evaluate, ArithmeticVariable_replace.
  destruct (replace_loop rt (namespace_separator av) (required_variables av)
              (full_expression av) ctx true) as [s1|e1] eqn:H1; simpl.
  - destruct (replace_loop_all_raise rt (namespace_separator av) ctx
                (required_variables av) s1 H) as (e2 & H2).
    rewrite H2; simpl.
    destruct (replace_loop_raise _ _ _ _ _ _ _ H2) as (k & v & Hin & Hr).
    exists k, v, e2. auto.
  - destruct (replace_loop_raise _ _ _ _ _ _ _ H1) as (k & v & Hin & Hr).
    exists k, v, e1. auto.
Qed.

Lemma evaluate_fails_with_a_failing_variable_witness :
  ArithmeticVariable_init date_namespace ":" qualified_then_bare
  = Ok days_plus_months
  /\ exists k v e,
       In (k, v) (required_variables days_plus_months)
       /\ to_python v (PyDict []) = Raise e
       /\ ArithmeticVariable_evaluate bare_runtime days_plus_months
            (PyDict [])
          = Raise e.
Proof.
  split; [reflexivity|].
  apply evaluate_fails_with_a_failing_variable.
  exists "x", (DateMonths bare_runtime 2), (KeyError "date").
  split; [right; left; reflexivity | reflexivity].
Defined.

Lemma str_replace_absent :
  forall old new s : string,
    str_contains old s = false -> str_replace old new s = s.
Proof.
  intros old new s H. destruct old as [|a old'].
  - destruct s; discriminate.
  - unfold str_replace. now apply replace_from_absent.
Qed.

(** X10. [replace] returns a text in which no key occurs as it is,
    when the variables it asks have a value. *)
Theorem replace_keeps_text_without_keys :
  forall (rt : PyRuntime) (av : ArithmeticVariable) (num : string)
         (ctx : Context) (namespace : bool),
    (forall k v, In (k, v) (required_variables av) ->
                 str_contains k num = false
                 /\ exists value, to_python v ctx = Ok value) ->
    ArithmeticVariable_replace rt av num ctx namespace = Ok num.
Proof.
  intros rt av num ctx namespace. unfold ArithmeticVariable_replace.
  induction (required_variables av) as [|[k v] rest IH]; intros H; simpl.
  - reflexivity.
  - assert (replace_loop rt (namespace_separator av) rest num ctx namespace
            = Ok num) as Hrest
      by (apply IH; intros k' v' Hin; apply H; now right).
    destruct (namespace && negb (str_contains (namespace_separator av) k))%bool;
      auto.
    destruct (H k v (or_introl eq_refl)) as (Habs & value & Hv).
    rewrite Hv; simpl. now rewrite str_replace_absent.
Qed.

Lemma replace_keeps_text_without_keys_witness :
  ArithmeticVariable_replace bare_runtime days_plus_months "1+2"
    five_and_two false
  = Ok "1+2".
Proof.
  apply replace_keeps_text_without_keys.
  intros k v [H|[H|[]]]; inversion H; split; try reflexivity;
    eexists; reflexivity.
Defined.

(** ** Set: construction *)

Lemma check_items_Ok :
  forall (items : list item) (os : list Operand),
    check_items items = Ok os -> items = map AnOperand os.
Proof.
  induction items as [|[o|v] rest IH]; intros os H; simpl in H.
  - now inversion H.
  - destruct (check_items rest) as [os'|e]; simpl in H; [|discriminate].
    inversion H; subst. simpl. now rewrite (IH os' eq_refl).
  - discriminate.
Qed.

Lemma check_items_Raise :
  forall (items : list item) (e : exn),
    check_items items = Raise e <->
    exists before v after,
      items = (map AnOperand before ++ NotOperand v :: after)%list
      /\ e = InvalidOperationError (NotAnOperand v).
Proof.
  induction items as [|[o|v] rest IH]; intros e; simpl.
  - split; [discriminate|].
    intros (before & v & after & H & _). now destruct before.
  - split.
    + intros H. destruct (check_items rest) as [os|e'] eqn:Hr; simpl in H;
        [discriminate|].
      inversion H; subst.
      destruct (proj1 (IH e) eq_refl) as (before & v & after & -> & ->).
      now exists (o :: before), v, after.
    + intros (before & v & after & H & ->).
      destruct before as [|b before]; simpl in H; inversion H; subst.
      assert (check_items (map AnOperand before ++ NotOperand v :: after)
              = Raise (InvalidOperationError (NotAnOperand v))) as ->
        by (apply IH; eauto).
      reflexivity.
  - split.
    + intros H. inversion H; subst. now exists [], v, rest.
    + intros (before & v' & after & H & ->).
      destruct before as [|b before]; simpl in H; inversion H; subst.
      reflexivity.
Qed.

Lemma set_of_members_of :
  forall (items : list Operand) (o : Operand),
    (In o (set_of items) -> In o items)
    /\ (In o items -> In (oid o) (map oid (set_of items))).
Proof.
  induction items as [|x rest IH]; intros o; simpl.
  - tauto.
  - split.
    + intros [H|H]; auto. apply filter_In in H. right. now apply IH.
    + intros [->|H]; auto.
      destruct (Nat.eq_dec (oid x) (oid o)) as [Heq|Hneq]; auto.
      right. apply IH in H. apply in_map_iff in H.
      destruct H as (w & Hw & Hin). apply in_map_iff. exists w.
      split; auto. apply filter_In. split; auto.
      apply negb_true_iff. unfold same_object. apply Nat.eqb_neq. congruence.
Qed.

(** X11. A constructed set holds distinct objects, each of them an
    argument, and every operand argument is among them; it never holds
    more members than there were arguments. *)
Theorem Set_init_members :
  forall (id : nat) (items : list item) (s : SetConst),
    Set_init id items = Ok s ->
    NoDup (member_ids s)
    /\ (forall o, In o (Set_constant_value s) -> In (AnOperand o) items)
    /\ (forall o, In (AnOperand o) items -> In (oid o) (member_ids s))
    /\ (List.length (Set_constant_value s) <= List.length items)%nat.
Proof.
  intros id items s H. split; [now apply (Set_init_distinct id items)|].
  unfold Set_init in H.
  destruct (check_items items) as [os|e] eqn:Hc; simpl in H; [|discriminate].
  inversion H; subst; simpl. apply check_items_Ok in Hc. subst items.
  unfold member_ids; simpl. split; [|split].
  - intros o Hin. apply in_map. now apply set_of_members_of.
  - intros o Hin. apply in_map_iff in Hin.
    destruct Hin as (o' & Heq & Hin). inversion Heq; subst.
    now apply set_of_members_of.
  - rewrite length_map. clear. induction os as [|x os IH]; simpl; [lia|].
    pose proof (filter_length_le (fun o => negb (same_object x o)) (set_of os)).
    lia.
Qed.

Lemma Set_init_members_witness :
  exists s,
    Set_init 5 [AnOperand (string_a 1); AnOperand (string_a 2);
                AnOperand (string_a 1)] = Ok s
    /\ NoDup (member_ids s)
    /\ member_ids s = [1%nat; 2%nat].
Proof.
  eexists. split; [reflexivity|]. split; [|reflexivity].
  apply (Set_init_members 5
           [AnOperand (string_a 1); AnOperand (string_a 2);
            AnOperand (string_a 1)] _ eq_refl).
Defined.

(** X12. [Set(...)] fails exactly when an argument is not an operand,
    and the [InvalidOperationError] carries the first such argument. *)
Theorem Set_init_rejects_first_non_operand :
  forall (id : nat) (items : list item) (e : exn),
    Set_init id items = Raise e <->
    exists before v after,
      items = (map AnOperand before ++ NotOperand v :: after)%list
      /\ e = InvalidOperationError (NotAnOperand v).
Proof.
  intros id items e. rewrite <- check_items_Raise. unfold Set_init.
  destruct (check_items items) as [os|e0]; simpl;
    [split; discriminate | split; intros H; inversion H; reflexivity].
Qed.

(** ** Set: the coercion to an integer *)

Lemma py_int_errors :
  forall (rt : PyRuntime) (v : PyVal) (e : exn),
    py_int rt v = Raise e ->
    e = ValueError \/ e = TypeError \/ e = OverflowError.
Proof.
  intros rt [| b | z | f | s | l | d] e H; simpl in H;
    try discriminate; try (inversion H; auto; fail).
  - destruct f; simpl in H; try discriminate; inversion H; auto.
  - destruct (int_of_text rt s); inversion H; auto.
Qed.

Lemma float_of_Z_errors :
  forall (k : Z) (e : exn), float_of_Z k = Raise e -> e = OverflowError.
Proof.
  intros k e H. unfold float_of_Z in H.
  destruct (binary_normalize prec emax k 0 false); inversion H; auto.
Qed.

Lemma py_float_errors :
  forall (rt : PyRuntime) (v : PyVal) (e : exn),
    py_float rt v = Raise e ->
    e = ValueError \/ e = TypeError \/ e = OverflowError.
Proof.
  intros rt [| b | z | f | s | l | d] e H; simpl in H;
    try discriminate; try (inversion H; auto; fail).
  - apply float_of_Z_errors in H. auto.
  - apply float_of_Z_errors in H. auto.
  - destruct (float_of_text rt s); inversion H; auto.
Qed.

(** X13. [Set._to_int] returns [int(value)] only when [float(value)] is
    exactly that integer; it fails with [InvalidOperationError] carrying
    the value, or with the [OverflowError] of [int] or [float]. *)
Theorem Set__to_int_exact_or_error :
  forall (rt : PyRuntime) (v : PyVal),
    match Set__to_int rt v with
    | Ok k =>
        py_int rt v = Ok k
        /\ exists f, py_float rt v = Ok f /\ int_eq_float k f = true
    | Raise e =>
        e = InvalidOperationError (NotAnInteger v)
        \/ (e = OverflowError
            /\ (py_int rt v = Raise OverflowError
                \/ py_float rt v = Raise OverflowError))
    end.
Proof.
  intros rt v. unfold Set__to_int.
  destruct (py_int rt v) as [i|e] eqn:Hi; simpl.
  - destruct (py_float rt v) as [f|e] eqn:Hf; simpl.
    + destruct (int_eq_float i f) eqn:He; eauto.
    + destruct (py_float_errors rt v e Hf) as [->|[->| ->]]; auto.
  - destruct (py_int_errors rt v e Hi) as [->|[->| ->]]; auto.
Qed.

(** X14. An [OverflowError] of [int(value)] or of [float(value)], as
    on an infinite float or on an int beyond the floats, is not caught:
    [_to_int], [less_than] and [greater_than] raise it. *)
Theorem Set__to_int_overflow_escapes :
  forall (rt : PyRuntime) (v : PyVal),
    (py_int rt v = Raise OverflowError
     \/ (exists i, py_int rt v = Ok i)
        /\ py_float rt v = Raise OverflowError) ->
    Set__to_int rt v = Raise OverflowError
    /\ (forall (s : SetConst) (ctx : Context),
          Set_less_than rt s v ctx = Raise OverflowError
          /\ Set_greater_than rt s v ctx = Raise OverflowError).
Proof.
  intros rt v H.
  assert (Set__to_int rt v = Raise OverflowError) as Hint.
  { unfold Set__to_int. destruct H as [Hi|[(i & Hi) Hf]].
    - now rewrite Hi.
    - now rewrite Hi; simpl; rewrite Hf. }
  split; [exact Hint|]. intros s ctx.
  unfold Set_less_than, Set_greater_than. now rewrite Hint.
Qed.

Lemma Set__to_int_overflow_escapes_witness :
  Set_less_than bare_runtime price_then_abc
    (PyFloat (S754_infinity false)) PyNone = Raise OverflowError
  /\ Set_less_than bare_runtime price_then_abc (PyInt (2 ^ 1024)) PyNone
     = Raise OverflowError.
Proof.
  split.
  - apply (Set__to_int_overflow_escapes bare_runtime
             (PyFloat (S754_infinity false))).
    left. reflexivity.
  - apply (Set__to_int_overflow_escapes bare_runtime (PyInt (2 ^ 1024))).
    right. split; [exists (2 ^ 1024); reflexivity | vm_compute; reflexivity].
Defined.

(** ** Set: membership among constants *)

Lemma constant_equals_quiet :
  forall (rt : PyRuntime) (o : Operand) (v : PyVal) (ctx : Context),
    is_constant rt o -> floatable rt v = true ->
    equals o v ctx = Ok true \/ passed_over (equals o v ctx) = true.
Proof.
  intros rt o v ctx [(s & ->)|(n & ->)] Hv; simpl.
  - unfold String_equals.
    destruct (String.eqb (String_constant_value s) (py_str rt v)); auto.
  - unfold Number_equals, Number__to_number. unfold floatable in Hv.
    destruct (py_float rt v) as [f|e]; simpl.
    + destruct (SFeqb (Number_constant_value n) f); auto.
    + destruct e; try discriminate. auto.
Qed.

Lemma belongs_to_loop_quiet :
  forall (v : PyVal) (ctx : Context) (members : list Operand),
    Forall (fun o => equals o v ctx = Ok true
                     \/ passed_over (equals o v ctx) = true) members ->
    belongs_to_loop members v ctx
    = Ok (existsb (fun o => negb (passed_over (equals o v ctx))) members).
Proof.
  intros v ctx. induction members as [|m rest IH]; intros H; simpl.
  - reflexivity.
  - inversion H as [|? ? Hm Hrest]; subst. rewrite (IH Hrest).
    destruct Hm as [Hm|Hm].
    + now rewrite Hm.
    + destruct (equals m v ctx) as [[|]|e]; try discriminate; auto.
      destruct e; try discriminate. reflexivity.
Qed.

(** X15. In a set of [String] and [Number] constants, on text, a
    float, a boolean or an int within the floats, [belongs_to] never
    raises and answers true iff some member equals the value, in
    whatever order the members are visited. *)
Theorem Set_of_constants_membership :
  forall (rt : PyRuntime) (s : SetConst) (v : PyVal) (ctx : Context),
    Forall (is_constant rt) (Set_constant_value s) ->
    floatable rt v = true ->
    exists b : bool,
      Set_belongs_to s v ctx = Ok b
      /\ (b = true <->
          exists m, In m (Set_constant_value s) /\ equals m v ctx = Ok true).
Proof.
  intros rt s v ctx Hc Hv. unfold Set_belongs_to.
  rewrite belongs_to_loop_quiet.
  - eexists. split; [reflexivity|]. rewrite existsb_exists. split.
    + intros (m & Hin & Hm). exists m. split; auto.
      rewrite Forall_forall in Hc.
      destruct (constant_equals_quiet rt m v ctx (Hc m Hin) Hv) as [H|H];
        auto.
      rewrite H in Hm. discriminate.
    + intros (m & Hin & Hm). exists m. split; auto. now rewrite Hm.
  - rewrite Forall_forall in *. intros m Hin.
    now apply constant_equals_quiet with rt; auto.
Qed.

Lemma Set_of_constants_membership_witness :
  exists b : bool,
    Set_belongs_to three_and_abc (PyStr "abc") PyNone = Ok b
    /\ (b = true <->
        exists m, In m (Set_constant_value three_and_abc)
                  /\ equals m (PyStr "abc") PyNone = Ok true).
Proof.
  apply (Set_of_constants_membership bare_runtime three_and_abc).
  - apply Forall_cons; [right; eexists; reflexivity|].
    apply Forall_cons; [left; eexists; reflexivity|].
    apply Forall_nil.
  - reflexivity.
Defined.

(** ** Set: is_subset *)

(** X16. [is_subset] answers false exactly when some element does not
    belong and all elements before it do; what comes after that
    element is not looked at. *)
Theorem Set_is_subset_stops_at_first_outsider :
  forall (s : SetConst) (ctx : Context) (vs : list PyVal),
    Set_is_subset s vs ctx = Ok false <->
    exists before v after,
      vs = (before ++ v :: after)%list
      /\ Forall (fun w => Set_belongs_to s w ctx = Ok true) before
      /\ Set_belongs_to s v ctx = Ok false.
Proof.
  intros s ctx. induction vs as [|v rest IH]; simpl.
  - split; [discriminate|].
    intros (before & v & after & H & _). now destruct before.
  - split.
    + intros H. destruct (Set_belongs_to s v ctx) as [[|]|e] eqn:Hv;
        simpl in H; try discriminate.
      * apply IH in H. destruct H as (before & w & after & -> & Hb & Hw).
        exists (v :: before), w, after. repeat split; auto.
      * exists [], v, rest. repeat split; auto.
    + intros (before & w & after & H & Hb & Hw).
      destruct before as [|b before]; simpl in H; inversion H; subst.
      * now rewrite Hw.
      * inversion Hb as [|? ? Hbt Hrest]; subst. rewrite Hbt; simpl.
        apply IH. eauto 6.
Qed.

(** ** Set: check_equivalence *)


Lemma Forall2_symmetric :
  forall (eq : Operand -> Operand -> bool) (l l' : list Operand),
    (forall a b, eq a b = true -> eq b a = true) ->
    Forall2 (fun u e => eq u e = true) l l' ->
    Forall2 (fun u e => eq u e = true) l' l.
Proof.
  intros eq l l' Hsym H. induction H; constructor; auto.
Qed.

Lemma paired_symmetric :
  forall (eq : Operand -> Operand -> bool) (self node : SetConst),
    (forall a b, eq a b = true -> eq b a = true) ->
    paired eq self node -> paired eq node self.
Proof.
  intros eq self node Hsym (p & Hp & Hf).
  destruct (Permutation_Forall2 Hp Hf) as (q & Hq & Hf').
  exists q. split.
  - now apply Permutation_sym.
  - now apply Forall2_symmetric.
Qed.

(** X18. Under an [==] of operands that is symmetric and transitive
    [check_equivalence] is symmetric, and it is reflexive on a set each
    of whose members is [==] to itself. *)
Theorem Set_check_equivalence_symmetric :
  forall (operand_eq : Operand -> Operand -> bool) (self node : SetConst),
    partial_equivalence operand_eq ->
    (Set_check_equivalence operand_eq self node = Ok tt <->
     Set_check_equivalence operand_eq node self = Ok tt)
    /\ (Forall (fun m => operand_eq m m = true) (Set_constant_value self) ->
        Set_check_equivalence operand_eq self self = Ok tt).
Proof.
  intros operand_eq self node Hper. split.
  - rewrite !Set_check_equivalence_paired by exact Hper.
    destruct Hper as [Hsym _]. split; now apply paired_symmetric.
  - intros Hrefl. apply Set_check_equivalence_paired; auto.
    exists (Set_constant_value self). split; auto.
    induction Hrefl; constructor; auto.
Qed.

Lemma Set_check_equivalence_symmetric_witness :
  Set_check_equivalence structural_eq two_other_strings_a two_strings_a
  = Ok tt
  /\ Set_check_equivalence structural_eq two_strings_a two_strings_a = Ok tt.
Proof.
  destruct (Set_check_equivalence_symmetric
              structural_eq two_strings_a two_other_strings_a
              structural_eq_partial_equivalence) as [symmetric reflexive].
  split.
  - apply symmetric. reflexivity.
  - apply reflexive. repeat constructor.
Defined.

(** ** stockVars: the integer date variables *)

(** X19. For the integer date variables, when the context holds the
    field and the value converts to an int (a float is truncated),
    exactly one of [equals], [greater_than] and [less_than] answers
    true, as the two integers compare. *)
Theorem Date_comparisons_trichotomy :
  forall (rt : PyRuntime) (field : string) (v : PyVal) (ctx : Context)
         (actual expected : Z),
    date_field rt field ctx = Ok actual ->
    py_int rt v = Ok expected ->
    exists e g l : bool,
      Date_equals rt field v ctx = Ok e
      /\ Date_greater_than rt field v ctx = Ok g
      /\ Date_less_than rt field v ctx = Ok l
      /\ (e = true <-> actual = expected)
      /\ (g = true <-> expected < actual)
      /\ (l = true <-> actual < expected)
      /\ ((e = true /\ g = false /\ l = false)
          \/ (e = false /\ g = true /\ l = false)
          \/ (e = false /\ g = false /\ l = true)).
Proof.
  intros rt field v ctx actual expected Ha He.
  unfold Date_equals, Date_greater_than, Date_less_than.
  rewrite Ha, He; simpl. do 3 eexists. repeat (split; [reflexivity|]).
  rewrite Z.eqb_eq, !Z.ltb_lt. repeat (split; [reflexivity|]).
  destruct (Z.eqb_spec actual expected), (Z.ltb_spec expected actual),
    (Z.ltb_spec actual expected); auto; lia.
Qed.

Lemma Date_comparisons_trichotomy_witness :
  exists e g l : bool,
    Date_equals bare_runtime "days" (PyFloat two_and_a_half) five_and_two
    = Ok e
    /\ Date_greater_than bare_runtime "days" (PyFloat two_and_a_half)
         five_and_two = Ok g
    /\ Date_less_than bare_runtime "days" (PyFloat two_and_a_half)
         five_and_two = Ok l
    /\ (e = true <-> 5 = 2)
    /\ (g = true <-> 2 < 5)
    /\ (l = true <-> 5 < 2)
    /\ ((e = true /\ g = false /\ l = false)
        \/ (e = false /\ g = true /\ l = false)
        \/ (e = false /\ g = false /\ l = true)).
Proof.
  exact (Date_comparisons_trichotomy bare_runtime "days"
           (PyFloat two_and_a_half) five_and_two 5 2 eq_refl eq_refl).
Defined.




(** ** stockVars: StockBuyPrice *)

Lemma StockBuyPrice_reads :
  forall (rt : PyRuntime) (ctx : Context) (actual : float),
    StockBuyPrice_to_python rt ctx = Ok (PyFloat actual) ->
    exists stock price,
      py_getitem ctx "stock" = Ok stock
      /\ py_getitem stock "buy_price" = Ok price
      /\ py_float rt price = Ok actual.
Proof.
  intros rt ctx actual H. unfold StockBuyPrice_to_python in H.
  destruct (py_getitem ctx "stock") as [stock|e] eqn:Hs; simpl in H;
    [|discriminate].
  destruct (py_getitem stock "buy_price") as [price|e] eqn:Hb; simpl in H;
    [|discriminate].
  destruct (py_float rt price) as [f|e] eqn:Hf; simpl in H; [|discriminate].
  inversion H; subst. exists stock, price. auto.
Qed.

(** X21. [StockBuyPrice] compares like the [Number] of its current
    price on every value that converts to a float. On text that is no
    number it raises the bare [ValueError], which [Set.belongs_to] does
    not pass over, where a [Number] raises [InvalidOperationError] and
    is passed over. *)
Theorem StockBuyPrice_compares_like_Number :
  forall (rt : PyRuntime) (ctx : Context) (actual : float) (n : Number),
    StockBuyPrice_to_python rt ctx = Ok (PyFloat actual) ->
    Number_constant_value n = actual ->
    (forall (v : PyVal) (f : float),
        py_float rt v = Ok f ->
        StockBuyPrice_equals rt v ctx = Number_equals rt n v ctx
        /\ StockBuyPrice_greater_than rt v ctx
           = Number_greater_than rt n v ctx
        /\ StockBuyPrice_less_than rt v ctx = Number_less_than rt n v ctx)
    /\ (forall v : PyVal,
          py_float rt v = Raise ValueError ->
          StockBuyPrice_equals rt v ctx = Raise ValueError
          /\ Number_equals rt n v ctx
             = Raise (InvalidOperationError (NotANumber v))
          /\ forall (id : nat) (rest : list Operand),
               belongs_to_loop (StockBuyPrice rt id :: rest) v ctx
               = Raise ValueError
               /\ belongs_to_loop (Number_operand rt n :: rest) v ctx
                  = belongs_to_loop rest v ctx).
Proof.
  intros rt ctx actual n Hp Hn.
  destruct (StockBuyPrice_reads rt ctx actual Hp)
    as (stock & price & Hs & Hb & Ha).
  split.
  - intros v f Hf.
    unfold StockBuyPrice_equals, StockBuyPrice_greater_than,
      StockBuyPrice_less_than, Number_equals, Number_greater_than,
      Number_less_than, Number__to_number.
    rewrite Hs; simpl. rewrite Hb; simpl. rewrite Ha, Hf; simpl.
    rewrite Hn. repeat split.
  - intros v Hv.
    assert (StockBuyPrice_equals rt v ctx = Raise ValueError) as Hse.
    { unfold StockBuyPrice_equals.
      rewrite Hs; simpl. rewrite Hb; simpl. now rewrite Ha, Hv. }
    assert (Number_equals rt n v ctx
            = Raise (InvalidOperationError (NotANumber v))) as Hne.
    { unfold Number_equals, Number__to_number. now rewrite Hv. }
    split; [exact Hse|]. split; [exact Hne|].
    intros id rest. simpl. rewrite Hse, Hne. split; reflexivity.
Qed.

Lemma StockBuyPrice_compares_like_Number_witness :
  StockBuyPrice_equals bare_runtime (PyInt 3) buy_price_three
  = Number_equals bare_runtime number_three (PyInt 3) buy_price_three
  /\ StockBuyPrice_equals bare_runtime (PyStr "abc") buy_price_three
     = Raise ValueError.
Proof.
  destruct (StockBuyPrice_compares_like_Number bare_runtime buy_price_three
              (Number_constant_value number_three) number_three
              eq_refl eq_refl)
    as [numbers text].
  split.
  - apply (numbers (PyInt 3) (Number_constant_value number_three)).
    reflexivity.
  - apply (text (PyStr "abc")). reflexivity.
Defined.
